(** * discord-mlb-ticker: the polling and change-detection engine

    A shallow embedding of [src/mlb_api.py] (the [MLBStatsAPI] gateway) and
    of the poll loop and roster commands of [src/bot.py], with the
    properties of the specification stated and proved over it.

    Conventions of the embedding.
    - A Python dict used as a struct is a record.  A key read with
      [d.get(k)] or [d.get(k, default)] is an [option] field and the
      default of the source is applied where the source applies it.  The
      three identity fields the upstream always carries ([id] and
      [fullName] of a person, [atBatIndex] of a play) are plain fields.
    - A chain [d.get(a, {}).get(b, {}).get(c)] is one [option] field: the
      chain yields the default exactly when one of its links is absent.
    - A dict used as a map ([last_atbats]) is a [gmap] with string keys.
    - [_request] catches every exception of the HTTP call and returns
      [{}]; the upstream is an oracle that answers each endpoint with
      [Some response] or with [None] when the call raised.
    - [channel.send] either delivers the embed or raises; the poll loop
      runs in a state-and-exception monad whose state holds the two JSON
      files, the calls made to [channel.send] and the console output of
      [bot.py] (the line [_request] prints on a failed call is not kept).
    - The two JSON files are well-formed and writable: [load_json] and
      [save_json] do not raise.
    - The embed timestamp and the request parameters that depend on the
      clock (season, date) are not modelled; the upstream oracle answers
      for the day of the poll.
    - A button of [PlayerSelectView] carries the closure that
      [create_callback] makes for the player it was enumerated with;
      [post_daily_schedule] is modelled up to the embed it hands to
      [channel.send].
    - Strings are the UTF-8 bytes of the Python strings.  [str.lower] is
      computed on ASCII strings and is a parameter on all others;
      [capitalize] is applied to the half-inning label only and acts on
      ASCII letters. *)

From Stdlib Require Import ZArith String Ascii List Bool Lia.
From stdpp Require Import base option list gmap strings pretty.

Open Scope string_scope.
Open Scope Z_scope.

(** ** Python string operations used by the source *)

Module Py.

Definition lower_char (c : ascii) : ascii :=
  let n := nat_of_ascii c in
  if (Nat.leb 65 n && Nat.leb n 90)%bool then ascii_of_nat (n + 32) else c.

Definition upper_char (c : ascii) : ascii :=
  let n := nat_of_ascii c in
  if (Nat.leb 97 n && Nat.leb n 122)%bool then ascii_of_nat (n - 32) else c.

(** Lower-casing of the letters A to Z, every other byte kept. *)
Fixpoint ascii_lower (s : string) : string :=
  match s with
  | EmptyString => EmptyString
  | String c r => String (lower_char c) (ascii_lower r)
  end.

(** Every character of the string is an ASCII character. *)
Fixpoint is_ascii (s : string) : bool :=
  match s with
  | EmptyString => true
  | String c r => Nat.ltb (nat_of_ascii c) 128 && is_ascii r
  end.

(** [s.lower()].  On a string of ASCII characters Python lower-cases the
    letters A to Z and keeps the rest.  On a string with other characters
    the result comes from the Unicode tables of the interpreter (accented
    capitals, the final-sigma rule, ...): it is the parameter
    [unicode_lower], about which nothing is assumed. *)
Definition lower (unicode_lower : string -> string) (s : string) : string :=
  if is_ascii s then ascii_lower s else unicode_lower s.

(** [s.capitalize()] on the half-inning label: first character
    upper-cased, the rest lower-cased. *)
Definition capitalize (s : string) : string :=
  match s with
  | EmptyString => EmptyString
  | String c r => String (upper_char c) (ascii_lower r)
  end.

(** [needle in hay] on strings: [needle] occurs as a contiguous substring. *)
Fixpoint contains (needle hay : string) : bool :=
  if String.prefix needle hay then true
  else match hay with
       | EmptyString => false
       | String _ rest => contains needle rest
       end.

Fixpoint mem_char (c : ascii) (chars : string) : bool :=
  match chars with
  | EmptyString => false
  | String d r => if Ascii.eqb c d then true else mem_char c r
  end.

(** [s.lstrip(chars)]: drop leading characters that belong to [chars]. *)
Fixpoint lstrip (chars s : string) : string :=
  match s with
  | EmptyString => EmptyString
  | String c r => if mem_char c chars then lstrip chars r else s
  end.

(** Truth value of a string, and [a or b] on strings. *)
Definition truthy (s : string) : bool :=
  match s with EmptyString => false | _ => true end.

Definition or_else (a b : string) : string := if truthy a then a else b.

(** [str(n)] and [f"{n}"] for an integer. *)
Definition str (n : Z) : string := pretty n.

(** Truth value of an optional integer: [None] and [0] are false. *)
Definition truthy_int (n : option Z) : bool :=
  match n with
  | Some k => negb (Z.eqb k 0)
  | None => false
  end.

(** Truth value of an optional string: [None] and [""] are false. *)
Definition truthy_opt (s : option string) : bool :=
  match s with
  | Some t => truthy t
  | None => false
  end.

(** [x in xs] for a list of strings. *)
Definition in_list (x : string) (xs : list string) : bool :=
  existsb (String.eqb x) xs.

End Py.

(** ** Records of the upstream JSON (MLB Stats API) *)

Record team_ref := {
  tr_name : option string;
  tr_id : option Z }.

Record position_ref := { pos_abbreviation : option string }.

Record person := {
  p_id : Z;
  p_fullName : string;
  p_primaryNumber : option string;
  p_currentTeam : option team_ref;
  p_primaryPosition : option position_ref }.

(** Response of [/sports/1/players] and of [/people/{id}]. *)
Record people_response := { people : option (list person) }.

Record linescore := {
  ls_away_runs : option Z;       (* teams.away.runs *)
  ls_home_runs : option Z;       (* teams.home.runs *)
  ls_currentInning : option Z;
  ls_inningState : option string }.

Record sched_game := {
  sg_gamePk : option Z;
  sg_away_name : option string;  (* teams.away.team.name *)
  sg_home_name : option string;  (* teams.home.team.name *)
  sg_linescore : option linescore;
  sg_gameDate : option string;
  sg_detailedState : option string (* status.detailedState *) }.

Record schedule_date := { sd_games : option (list sched_game) }.

Record schedule_response := { dates : option (list schedule_date) }.

Record movement := { mv_start : option string }.

Record runner := { rn_movement : option movement }.

Record play := {
  pl_batter_id : option Z;          (* matchup.batter.id *)
  pl_event : option string;         (* result.event *)
  pl_description : option string;   (* result.description *)
  pl_inning : option Z;             (* about.inning *)
  pl_halfInning : option string;    (* about.halfInning *)
  pl_runners : option (list runner);
  pl_atBatIndex : Z }.

Record batting_line := {
  bl_hits : option Z;
  bl_atBats : option Z;
  bl_rbi : option Z;
  bl_runs : option Z }.

Record box_player := {
  bp_person_id : option Z;           (* person.id *)
  bp_batting : option batting_line   (* stats.batting *) }.

Record live_data := {
  ld_allPlays : option (list play);  (* plays.allPlays *)
  ld_away_players : option (list (string * box_player)); (* boxscore.teams.away.players *)
  ld_home_players : option (list (string * box_player))  (* boxscore.teams.home.players *) }.

(** Response of [/game/{pk}/feed/live]; only the [liveData] key is read. *)
Record feed_response := { liveData : option live_data }.

Record season_stat := {
  ss_avg : option string;
  ss_obp : option string;
  ss_slg : option string;
  ss_hits : option Z;
  ss_atBats : option Z;
  ss_rbi : option Z;
  ss_runs : option Z;
  ss_homeRuns : option Z }.

Record split := { sp_stat : option season_stat }.

Record stat_group := { splits : option (list split) }.

Record stats_response := { stats : option (list stat_group) }.

(** The empty dict [{}] at each record type. *)
Global Instance team_ref_empty : Empty team_ref :=
  {| tr_name := None; tr_id := None |}.
Global Instance position_ref_empty : Empty position_ref :=
  {| pos_abbreviation := None |}.
Global Instance people_response_empty : Empty people_response :=
  {| people := None |}.
Global Instance linescore_empty : Empty linescore :=
  {| ls_away_runs := None; ls_home_runs := None;
     ls_currentInning := None; ls_inningState := None |}.
Global Instance schedule_response_empty : Empty schedule_response :=
  {| dates := None |}.
Global Instance movement_empty : Empty movement := {| mv_start := None |}.
Global Instance batting_line_empty : Empty batting_line :=
  {| bl_hits := None; bl_atBats := None; bl_rbi := None; bl_runs := None |}.
Global Instance live_data_empty : Empty live_data :=
  {| ld_allPlays := None; ld_away_players := None; ld_home_players := None |}.
Global Instance feed_response_empty : Empty feed_response :=
  {| liveData := None |}.
Global Instance season_stat_empty : Empty season_stat :=
  {| ss_avg := None; ss_obp := None; ss_slg := None; ss_hits := None;
     ss_atBats := None; ss_rbi := None; ss_runs := None; ss_homeRuns := None |}.
Global Instance stat_group_empty : Empty stat_group := {| splits := None |}.
Global Instance stats_response_empty : Empty stats_response :=
  {| stats := None |}.

(** The upstream HTTP API as seen during one poll: each endpoint answers
    with a decoded body, or the call raises ([None]). *)
Record upstream := {
  GET_players : option people_response;         (* /sports/1/players *)
  GET_person : Z -> option people_response;     (* /people/{player_id} *)
  GET_schedule : Z -> option schedule_response; (* /schedule?teamId=..&date=today *)
  GET_feed : Z -> option feed_response;         (* /game/{game_pk}/feed/live *)
  GET_stats : Z -> option stats_response        (* /people/{player_id}/stats *) }.

(** ** Records built by the gateway *)

Record player_info := {
  id : Z;
  name : string;
  primaryNumber : option string;
  team : string;
  team_id : option Z;
  position : string }.

Record game_stats := {
  gs_hits : Z;
  gs_atbats : Z;
  gs_rbi : Z;
  gs_runs : Z }.

(** The dict of [_format_game_info].  [player_stats] is the key that
    [post_game_summary] reads with [game_data.get('player_stats', {})]. *)
Record game_info := {
  game_pk : option Z;
  away_team : string;
  home_team : string;
  away_score : Z;
  home_score : Z;
  inning : Z;
  inning_state : string;
  game_time : string;
  gameComplete : bool;
  player_stats : option game_stats }.

Record season_stats := {
  avg : string;
  obp : string;
  slg : string;
  hits : Z;
  atbats : Z;
  rbi : Z;
  runs : Z;
  homeRuns : Z }.

Record atbat := {
  ab_id : Z;
  ab_result : string;
  ab_description : string;
  was_hit : bool;
  risp : bool;
  ab_inning : string;
  ab_stats : season_stats }.

(** ** [class MLBStatsAPI] *)

Module MLBStatsAPI.

Section Gateway.

(** [datetime.fromisoformat(..).strftime("%I:%M %p ET")] of the standard
    library: [None] when parsing raises. *)
Variable format_time : string -> option string.

(** [str.lower] on strings that are not ASCII (see [Py.lower]). *)
Variable unicode_lower : string -> string.

Variable up : upstream.

(** [_request]: the body of the response, or [{}] when the call raised.
    The line it prints in that case ("API request failed: ...") is not
    recorded: the [console] of the state of [bot.py] below holds the lines
    that [bot.py] prints, not those of the gateway. *)
Definition _request {R : Type} `{Empty R} (response : option R) : R :=
  match response with
  | Some body => body
  | None => ∅
  end.

Definition _format_player_info (player_data : person) : player_info :=
  let team_info := default ∅ (p_currentTeam player_data) in
  {| id := p_id player_data;
     name := p_fullName player_data;
     primaryNumber := p_primaryNumber player_data;
     team := default "Unknown" (tr_name team_info);
     team_id := tr_id team_info;
     position :=
       default "N/A"
         (pos_abbreviation (default ∅ (p_primaryPosition player_data))) |}.

(** The loop of [search_player]: return at the first match. *)
Fixpoint search_loop (name_lower : string) (players : list person)
  : option player_info :=
  match players with
  | [] => None
  | player :: rest =>
      let player_name := Py.lower unicode_lower (p_fullName player) in
      if Py.contains name_lower player_name
      then Some (_format_player_info player)
      else search_loop name_lower rest
  end.

Definition search_player (name : string) : option player_info :=
  let data := _request (GET_players up) in
  let players := default [] (people data) in
  let name_lower := Py.lower unicode_lower name in
  search_loop name_lower players.

Definition _format_game_info (game_data : sched_game) : game_info :=
  let linescore := default ∅ (sg_linescore game_data) in
  let game_time := default "" (sg_gameDate game_data) in
  let game_time :=
    if Py.truthy game_time
    then default "TBD" (format_time game_time)
    else game_time in
  {| game_pk := sg_gamePk game_data;
     away_team := default "" (sg_away_name game_data);
     home_team := default "" (sg_home_name game_data);
     away_score := default 0 (ls_away_runs linescore);
     home_score := default 0 (ls_home_runs linescore);
     inning := default 1 (ls_currentInning linescore);
     inning_state := default "" (ls_inningState linescore);
     game_time := game_time;
     gameComplete :=
       bool_decide (sg_detailedState game_data = Some "Final");
     player_stats := None |}.

Definition get_player_game_today (player_id : Z) : option game_info :=
  let player_data := _request (GET_person up player_id) in
  match people player_data with
  | None | Some [] => None
  | Some (first :: _) =>
      let team_id := tr_id (default ∅ (p_currentTeam first)) in
      match team_id with
      | None => None
      | Some tid =>
          if Z.eqb tid 0 then None
          else
            let schedule_data := _request (GET_schedule up tid) in
            match default [] (dates schedule_data) with
            | [] => None
            | date0 :: _ =>
                match sd_games date0 with
                | None | Some [] => None
                | Some (game :: _) => Some (_format_game_info game)
                end
            end
      end
  end.

Definition zero_season_stats : season_stats :=
  {| avg := ".000"; obp := ".000"; slg := ".000";
     hits := 0; atbats := 0; rbi := 0; runs := 0; homeRuns := 0 |}.

(** [str(stats.get(k, ".000")).lstrip("0") or "0"] *)
Definition format_average (v : option string) : string :=
  Py.or_else (Py.lstrip "0" (default ".000" v)) "0".

Definition _get_player_season_stats (player_id : Z) : season_stats :=
  let data := _request (GET_stats up player_id) in
  match default [∅] (stats data) with
  | [] => zero_season_stats        (* IndexError, caught *)
  | group0 :: _ =>
      match default [] (splits group0) with
      | [] => zero_season_stats
      | split0 :: _ =>
          let st := default ∅ (sp_stat split0) in
          {| avg := format_average (ss_avg st);
             obp := format_average (ss_obp st);
             slg := format_average (ss_slg st);
             hits := default 0 (ss_hits st);
             atbats := default 0 (ss_atBats st);
             rbi := default 0 (ss_rbi st);
             runs := default 0 (ss_runs st);
             homeRuns := default 0 (ss_homeRuns st) |}
      end
  end.

Definition hit_events : list string :=
  ["Single"; "Double"; "Triple"; "Home Run"].

(** [runner.get("movement", {}).get("start") in ["2B", "3B"]] *)
Definition starts_in_scoring_position (r : runner) : bool :=
  match mv_start (default ∅ (rn_movement r)) with
  | Some base => Py.in_list base ["2B"; "3B"]
  | None => false
  end.

Definition _format_atbat (play_data : play) (game_data : game_info)
    (player_stats : season_stats) : atbat :=
  let runners := default [] (pl_runners play_data) in
  let risp := existsb starts_in_scoring_position runners in
  let event := default "" (pl_event play_data) in
  let was_hit := Py.in_list event hit_events in
  let inning_num := default 1 (pl_inning play_data) in
  let inning_half := default "top" (pl_halfInning play_data) in
  let inning_str := Py.capitalize inning_half +:+ " " +:+ Py.str inning_num in
  {| ab_id := pl_atBatIndex play_data;
     ab_result := event;
     ab_description := default "" (pl_description play_data);
     was_hit := was_hit;
     risp := risp;
     ab_inning := inning_str;
     ab_stats := player_stats |}.

(** The filter of [get_latest_atbat]: the player is the batter and the
    play has both an event and a description. *)
Definition is_completed_atbat (player_id : Z) (p : play) : bool :=
  bool_decide (pl_batter_id p = Some player_id)
  && (Py.truthy_opt (pl_event p) && Py.truthy_opt (pl_description p)).

(** [not feed_data]: the decoded body is the empty dict.  A body that has
    other keys but no [liveData] passes this test and then finds no play. *)
Definition is_empty_feed (feed_data : feed_response) : bool :=
  match liveData feed_data with
  | None => true
  | Some _ => false
  end.

Definition get_latest_atbat (player_id : Z) (game_data : game_info)
  : option atbat :=
  if negb (Py.truthy_int (game_pk game_data)) then None
  else
    let pk := default 0 (game_pk game_data) in
    let feed_data := _request (GET_feed up pk) in
    if is_empty_feed feed_data then None
    else
      let all_plays :=
        default [] (ld_allPlays (default ∅ (liveData feed_data))) in
      let player_atbats :=
        List.filter (is_completed_atbat player_id) all_plays in
      match last player_atbats with
      | None => None
      | Some latest =>
          let player_stats := _get_player_season_stats player_id in
          Some (_format_atbat latest game_data player_stats)
      end.

Definition zero_game_stats : game_stats :=
  {| gs_hits := 0; gs_atbats := 0; gs_rbi := 0; gs_runs := 0 |}.

(** The inner loop of [get_player_game_stats] over [players.items()]. *)
Fixpoint find_batting (player_id : Z) (players : list (string * box_player))
  : option game_stats :=
  match players with
  | [] => None
  | (_, player_data) :: rest =>
      if bool_decide (bp_person_id player_data = Some player_id)
      then
        let b := default ∅ (bp_batting player_data) in
        Some {| gs_hits := default 0 (bl_hits b);
                gs_atbats := default 0 (bl_atBats b);
                gs_rbi := default 0 (bl_rbi b);
                gs_runs := default 0 (bl_runs b) |}
      else find_batting player_id rest
  end.

Definition get_player_game_stats (player_id game_pk : Z) : game_stats :=
  let feed_data := _request (GET_feed up game_pk) in
  let live := default ∅ (liveData feed_data) in
  match find_batting player_id (default [] (ld_away_players live)) with
  | Some s => s
  | None =>
      match find_batting player_id (default [] (ld_home_players live)) with
      | Some s => s
      | None => zero_game_stats
      end
  end.

End Gateway.

End MLBStatsAPI.

(** ** [bot.py]: notifier, poll loop and roster commands *)

Module Bot.

Import MLBStatsAPI.

(** The exception [channel.send] raises when delivery fails. *)
Inductive exn := HTTPException (msg : string).

Definition exn_str (e : exn) : string :=
  match e with HTTPException msg => msg end.

Inductive color := green | red | blue | gold.

Record embed_field := {
  ef_name : string;
  ef_value : string;
  ef_inline : bool }.

(** A [discord.Embed] without its timestamp (wall-clock time). *)
Record embed := {
  em_title : string;
  em_color : color;
  em_fields : list embed_field;
  em_footer : string }.

(** The channel decides for each embed whether [send] raises. *)
Record channel := { send_raises : embed -> option exn }.

(** The two JSON files of [config.py], indexed by the type they hold. *)
Inductive file : Type -> Type :=
| PLAYER_ROSTER_FILE : file (list player_info)
| LAST_ATBATS_FILE : file (gmap string Z).

Definition file_path {A : Type} (f : file A) : string :=
  match f with
  | PLAYER_ROSTER_FILE => "players.json"
  | LAST_ATBATS_FILE => "last_atbats.json"
  end.

(** State of the running bot.  [last_atbats] is the dict that the running
    [check_games] loaded and mutates in place; a file that does not exist
    is [None].  [console] records the [print] calls of [bot.py] only. *)
Record state := {
  players_json : option (list player_info);
  last_atbats_json : option (gmap string Z);
  writes : list string;                    (* paths written by [save_json] *)
  last_atbats : gmap string Z;
  send_calls : list (embed * option exn);  (* calls of [channel.send], oldest first *)
  console : list string                    (* lines printed by [bot.py] *) }.

Definition read_file {A : Type} (f : file A) (s : state) : option A :=
  match f in file T return option T with
  | PLAYER_ROSTER_FILE => players_json s
  | LAST_ATBATS_FILE => last_atbats_json s
  end.

Definition write_file {A : Type} (f : file A) (data : A) (s : state) : state :=
  match f in file T return T -> state with
  | PLAYER_ROSTER_FILE => λ d,
      {| players_json := Some d; last_atbats_json := last_atbats_json s;
         writes := writes s ++ [file_path PLAYER_ROSTER_FILE];
         last_atbats := last_atbats s; send_calls := send_calls s;
         console := console s |}
  | LAST_ATBATS_FILE => λ d,
      {| players_json := players_json s; last_atbats_json := Some d;
         writes := writes s ++ [file_path LAST_ATBATS_FILE];
         last_atbats := last_atbats s; send_calls := send_calls s;
         console := console s |}
  end data.

Definition set_last_atbats (m : gmap string Z) (s : state) : state :=
  {| players_json := players_json s; last_atbats_json := last_atbats_json s;
     writes := writes s; last_atbats := m; send_calls := send_calls s;
     console := console s |}.

Definition log_send (e : embed) (r : option exn) (s : state) : state :=
  {| players_json := players_json s; last_atbats_json := last_atbats_json s;
     writes := writes s; last_atbats := last_atbats s;
     send_calls := send_calls s ++ [(e, r)]; console := console s |}.

Definition log_print (line : string) (s : state) : state :=
  {| players_json := players_json s; last_atbats_json := last_atbats_json s;
     writes := writes s; last_atbats := last_atbats s;
     send_calls := send_calls s; console := console s ++ [line] |}.

(** Embeds delivered to the channel, oldest first. *)
Definition delivered (s : state) : list embed :=
  map fst (List.filter (λ c, bool_decide (snd c = None)) (send_calls s)).

(** *** The state-and-exception monad of the coroutines *)

Definition M (A : Type) : Type := state -> (exn + A) * state.

Global Instance M_ret : MRet M := λ A a s, (inr a, s).

Global Instance M_bind : MBind M := λ A B k m s,
  match m s with
  | (inl e, s') => (inl e, s')
  | (inr a, s') => k a s'
  end.

Definition gets {A : Type} (f : state -> A) : M A := λ s, (inr (f s), s).

Definition modify (f : state -> state) : M unit := λ s, (inr tt, f s).

Definition print (line : string) : M unit := modify (log_print line).

(** [try: body except Exception as e: handler(e)] *)
Definition try_except (body : M unit) (handler : exn -> M unit) : M unit :=
  λ s, match body s with
       | (inl e, s') => handler e s'
       | (inr _, s') => (inr tt, s')
       end.

(** [await channel.send(embed=e)] *)
Definition send (ch : channel) (e : embed) : M unit := λ s,
  match send_raises ch e with
  | Some x => (inl x, log_send e (Some x) s)
  | None => (inr tt, log_send e None s)
  end.

Definition load_json {A : Type} (f : file A) (default : A) : M A :=
  gets (λ s, match read_file f s with Some data => data | None => default end).

Definition save_json {A : Type} (f : file A) (data : A) : M unit :=
  modify (write_file f data).

(** The state after running [m]. *)
Definition exec {A : Type} (m : M A) (s : state) : state := snd (m s).

(** [m] ends by raising an exception. *)
Definition raises {A : Type} (m : M A) (s : state) : Prop :=
  ∃ e, fst (m s) = inl e.

(** The calls of [channel.send] made while [m] runs from [s], the embeds
    handed over in them, and those of them that were delivered. *)
Definition new_calls {A : Type} (m : M A) (s : state)
  : list (embed * option exn) :=
  drop (length (send_calls s)) (send_calls (exec m s)).

Definition posted {A : Type} (m : M A) (s : state) : list embed :=
  map fst (new_calls m s).

Definition notified {A : Type} (m : M A) (s : state) : list embed :=
  map fst (List.filter (λ c, bool_decide (snd c = None)) (new_calls m s)).

(** *** The notifier *)

(** The embed of [post_atbat_update]. *)
Definition atbat_embed (player : player_info) (ab : atbat)
    (game_data : game_info) : embed :=
  let st := ab_stats ab in
  let slash_line :=
    "." +:+ avg st +:+ " / ." +:+ obp st +:+ " / ." +:+ slg st in
  let context :=
    "**" +:+ away_team game_data +:+ " @ " +:+ home_team game_data +:+ "** | " in
  let context :=
    context +:+ "Score: " +:+ Py.str (away_score game_data) +:+ "-"
      +:+ Py.str (home_score game_data) +:+ " | " in
  let context := context +:+ ab_inning ab in
  let context :=
    if risp ab then context +:+ " | 🔶 **RISP**" else context in
  {| em_title := "⚾ " +:+ name player +:+ " - At Bat";
     em_color := if was_hit ab then green else red;
     em_fields :=
       [ {| ef_name := "Result";
            ef_value := "**" +:+ ab_result ab +:+ "**";
            ef_inline := false |};
         {| ef_name := "Season Slash Line";
            ef_value := slash_line;
            ef_inline := false |};
         {| ef_name := "Game Context";
            ef_value := context;
            ef_inline := false |} ];
     em_footer := team player |}.

Definition post_atbat_update (ch : channel) (player : player_info)
    (ab : atbat) (game_data : game_info) : M unit :=
  send ch (atbat_embed player ab game_data).

(** The embed of [post_game_summary]; [stats.get(k, 0)] on the dict
    [game_data.get('player_stats', {})]. *)
Definition summary_embed (player : player_info) (game_data : game_info)
  : embed :=
  let st := player_stats game_data in
  let stat (k : game_stats -> Z) : Z := default 0 (k <$> st) in
  {| em_title := "📊 Game Complete - " +:+ name player;
     em_color := blue;
     em_fields :=
       [ {| ef_name := "Final Line";
            ef_value :=
              Py.str (stat gs_hits) +:+ "-for-" +:+ Py.str (stat gs_atbats);
            ef_inline := true |} ]
       ++ (if Z.ltb 0 (stat gs_rbi)
           then [ {| ef_name := "RBI"; ef_value := Py.str (stat gs_rbi);
                     ef_inline := true |} ]
           else [])
       ++ (if Z.ltb 0 (stat gs_runs)
           then [ {| ef_name := "Runs"; ef_value := Py.str (stat gs_runs);
                     ef_inline := true |} ]
           else [])
       ++ [ {| ef_name := "Game Result";
               ef_value :=
                 "**" +:+ away_team game_data +:+ " "
                   +:+ Py.str (away_score game_data) +:+ ", "
                   +:+ home_team game_data +:+ " "
                   +:+ Py.str (home_score game_data) +:+ "**";
               ef_inline := false |} ];
     em_footer := team player |}.

Definition post_game_summary (ch : channel) (player : player_info)
    (game_data : game_info) : M unit :=
  send ch (summary_embed player game_data).

(** The state after the at-bat post was delivered and the marker saved
    (lines 296 to 300 of [check_games]). *)
Definition marked (player : player_info) (ab : atbat) (g : game_info)
    (s : state) : state :=
  let m := <[Py.str (id player) := ab_id ab]> (last_atbats s) in
  write_file LAST_ATBATS_FILE m
    (set_last_atbats m (log_send (atbat_embed player ab g) None s)).

(** *** [check_games] *)

Section Poll.

Variable format_time : string -> option string.
Variable CHANNEL_ID : Z.

(** The body of the [try] block for one roster entry. *)
Definition check_player (up : upstream) (ch : channel) (player : player_info)
  : M unit :=
  match get_player_game_today format_time up (id player) with
  | None => mret tt
  | Some game_data =>
      match get_latest_atbat up (id player) game_data with
      | None => mret tt
      | Some latest_atbat =>
          let player_key := Py.str (id player) in
          last_atbat_id ← gets (λ s, last_atbats s !! player_key);
          if bool_decide (Some (ab_id latest_atbat) ≠ last_atbat_id)
          then
            post_atbat_update ch player latest_atbat game_data;;
            modify (λ s, set_last_atbats
                           (<[player_key := ab_id latest_atbat]> (last_atbats s)) s);;
            dict ← gets last_atbats;
            save_json LAST_ATBATS_FILE dict;;
            if gameComplete game_data
            then post_game_summary ch player game_data
            else mret tt
          else mret tt
      end
  end.

(** The [except Exception as e] clause. *)
Definition on_error (player : player_info) (e : exn) : M unit :=
  print ("Error checking " +:+ name player +:+ ": " +:+ exn_str e).

(** [for player in roster: try: ... except ...] *)
Fixpoint for_each_player (up : upstream) (ch : channel)
    (roster : list player_info) : M unit :=
  match roster with
  | [] => mret tt
  | player :: rest =>
      try_except (check_player up ch player) (on_error player);;
      for_each_player up ch rest
  end.

(** One tick of the poll loop; [get_channel] is the result of
    [bot.get_channel(CHANNEL_ID)]. *)
Definition check_games (up : upstream) (get_channel : option channel)
  : M unit :=
  roster ← load_json PLAYER_ROSTER_FILE [];
  match roster with
  | [] => mret tt
  | _ :: _ =>
      dict ← load_json LAST_ATBATS_FILE ∅;
      modify (set_last_atbats dict);;
      match get_channel with
      | None =>
          print ("Warning: Could not find channel with ID "
                   +:+ Py.str CHANNEL_ID)
      | Some ch => for_each_player up ch roster
      end
  end.

End Poll.

(** *** Two invariants of the marker dict *)

(** The marker of [player] in [m] is the id of the latest at-bat the
    upstream reports for it, if it reports one. *)
Definition settled (format_time : string -> option string) (up : upstream)
    (m : gmap string Z) (player : player_info) : Prop :=
  ∀ g ab,
    get_player_game_today format_time up (id player) = Some g →
    get_latest_atbat up (id player) g = Some ab →
    m !! Py.str (id player) = Some (ab_id ab).

(** The marker file agrees with the dict in memory. *)
Definition in_sync (s : state) : Prop :=
  match last_atbats_json s with
  | Some m => m = last_atbats s
  | None => last_atbats s = ∅
  end.

(** A call of [channel.send] that delivered an embed other than the blue
    summary, that is, an at-bat embed. *)
Definition delivered_atbat (c : embed * option exn) : bool :=
  match snd c, em_color (fst c) with
  | None, blue => false
  | None, _ => true
  | Some _, _ => false
  end.

(** *** [remove_player] *)

Definition ADMIN_ROLE_NAME : string := "MLB Bot Admin".

(** The filter of the list comprehension: the entry is kept.
    [unicode_lower] is [str.lower] on strings that are not ASCII. *)
Definition keeps (unicode_lower : string -> string) (player_name : string)
    (p : player_info) : bool :=
  negb (Py.contains (Py.lower unicode_lower player_name)
          (Py.lower unicode_lower (name p))).

(** The command; [has_role] is [role in interaction.user.roles] and the
    result is the text passed to [interaction.response.send_message]. *)
Definition remove_player (unicode_lower : string -> string)
    (has_role : bool) (player_name : string) : M string :=
  if negb has_role
  then mret ("You need the '" +:+ ADMIN_ROLE_NAME
               +:+ "' role to use this command.")
  else
    roster ← load_json PLAYER_ROSTER_FILE [];
    let initial_count := length roster in
    let roster := List.filter (keeps unicode_lower player_name) roster in
    if Nat.eqb (length roster) initial_count
    then mret ("Player '" +:+ player_name +:+ "' not found in roster.")
    else
      save_json PLAYER_ROSTER_FILE roster;;
      mret ("✅ Removed player matching '" +:+ player_name
              +:+ "' from tracking.").

(** *** [PlayerSelectView] *)

(** What a callback answers through [interaction.response]. *)
Inductive reply :=
| send_message (content : string) (ephemeral : bool)
| edit_message (content : string).

(** [any(p['id'] == player['id'] for p in roster)] *)
Definition already_tracked (player : player_info) (roster : list player_info)
  : bool :=
  existsb (λ p, Z.eqb (id p) (id player)) roster.

(** [player.get('primaryNumber', 'N/A')] inside an f-string.  The dict
    built by [_format_player_info] always has the key; a number the
    upstream does not give is the value [None], which prints as None. *)
Definition number_text (player : player_info) : string :=
  match primaryNumber player with
  | Some n => n
  | None => "None"
  end.

(** The closure [create_callback(index)] makes for a button.
    [selected_player] is [self.players[index]], the player [__init__]
    enumerated for that button, and [same_user] is
    [interaction.user.id == self.original_interaction.user.id]. *)
Definition create_callback (selected_player : player_info) (same_user : bool)
  : M reply :=
  if negb same_user
  then mret (send_message "This selection is not for you!" true)
  else
    roster ← load_json PLAYER_ROSTER_FILE [];
    if already_tracked selected_player roster
    then mret (edit_message ("❌ " +:+ name selected_player
                               +:+ " is already being tracked!"))
    else
      let roster := (roster ++ [selected_player])%list in
      save_json PLAYER_ROSTER_FILE roster;;
      mret (edit_message
              ("✅ Now tracking **" +:+ name selected_player +:+ "** (#"
                 +:+ number_text selected_player +:+ ") - "
                 +:+ team selected_player)).

Definition cancel_callback (same_user : bool) : M reply :=
  if negb same_user
  then mret (send_message "This selection is not for you!" true)
  else mret (edit_message "❌ Cancelled.").

Record button := {
  bt_label : string;
  bt_custom_id : string;
  bt_callback : bool -> M reply }.

(** The buttons [__init__] adds: one for each of [players[:5]], then
    Cancel. *)
Definition PlayerSelectView (players : list player_info) : list button :=
  (imap (λ i player,
           {| bt_label := name player +:+ " - " +:+ team player;
              bt_custom_id := "player_" +:+ Py.str (Z.of_nat i);
              bt_callback := create_callback player |})
     (take 5 players)
   ++ [ {| bt_label := "Cancel"; bt_custom_id := "cancel";
           bt_callback := cancel_callback |} ])%list.

(** *** [post_daily_schedule] *)

(** The embed of [post_daily_schedule]: it has a description and no
    fields. *)
Record schedule_embed := {
  se_title : string;
  se_color : color;
  se_description : string;
  se_footer : string }.

Definition newline : string := String (ascii_of_nat 10) EmptyString.

Section DailySchedule.

Variable format_time : string -> option string.
Variable CHANNEL_ID : Z.
Variable up : upstream.

(** The line appended to [games_today] for one roster entry. *)
Definition schedule_line (player : player_info) : string :=
  match get_player_game_today format_time up (id player) with
  | Some game =>
      "**" +:+ name player +:+ "**: " +:+ away_team game +:+ " @ "
        +:+ home_team game +:+ " - " +:+ game_time game
  | None => "**" +:+ name player +:+ "**: No game scheduled"
  end.

(** [post_daily_schedule] up to its last statement: the result is the
    embed handed to [channel.send], or [None] when the function returns
    before building one.  [channel_found] is the truth value of
    [bot.get_channel(CHANNEL_ID)].  The [except] clause of the loop is not
    reached, since [get_player_game_today] does not raise. *)
Definition post_daily_schedule (channel_found : bool)
  : M (option schedule_embed) :=
  roster ← load_json PLAYER_ROSTER_FILE [];
  match roster with
  | [] => print "No players to track.";; mret None
  | _ :: _ =>
      if negb channel_found
      then
        print ("Warning: Could not find channel with ID "
                 +:+ Py.str CHANNEL_ID);;
        mret None
      else
        let games_today := map schedule_line roster in
        let description :=
          match games_today with
          | [] => "No tracked players have games today."
          | _ :: _ => String.concat newline games_today
          end in
        mret (Some {| se_title := "📅 Today's Games";
                      se_color := gold;
                      se_description := description;
                      se_footer :=
                        "Tracking " +:+ Py.str (Z.of_nat (length roster))
                          +:+ " player(s)" |})
  end.

End DailySchedule.

End Bot.

(** ** Concrete inputs used by the examples below *)

Module Scenario.

Import MLBStatsAPI Bot.

Definition no_time : string -> option string := λ _, None.

(** Every name and query of the scenarios is ASCII, so the Unicode tables
    are never consulted; this stands in for them. *)
Definition no_unicode : string -> string := λ s, s.

Definition dodgers : team_ref :=
  {| tr_name := Some "Los Angeles Dodgers"; tr_id := Some 119 |}.

Definition royals : team_ref :=
  {| tr_name := Some "Kansas City Royals"; tr_id := Some 118 |}.

Definition ohtani_person : person :=
  {| p_id := 660271; p_fullName := "Shohei Ohtani";
     p_primaryNumber := Some "17"; p_currentTeam := Some dodgers;
     p_primaryPosition := Some {| pos_abbreviation := Some "DH" |} |}.

Definition smith_catcher : person :=
  {| p_id := 669257; p_fullName := "Will Smith";
     p_primaryNumber := Some "16"; p_currentTeam := Some dodgers;
     p_primaryPosition := Some {| pos_abbreviation := Some "C" |} |}.

Definition smith_pitcher : person :=
  {| p_id := 519293; p_fullName := "Will Smith";
     p_primaryNumber := Some "31"; p_currentTeam := Some royals;
     p_primaryPosition := Some {| pos_abbreviation := Some "P" |} |}.

Definition ohtani : player_info :=
  {| id := 660271; name := "Shohei Ohtani"; primaryNumber := Some "17";
     team := "Los Angeles Dodgers"; team_id := Some 119; position := "DH" |}.

Definition judge : player_info :=
  {| id := 592450; name := "Aaron Judge"; primaryNumber := Some "99";
     team := "New York Yankees"; team_id := Some 147; position := "RF" |}.

Definition game_777 (state : string) : sched_game :=
  {| sg_gamePk := Some 777;
     sg_away_name := Some "San Diego Padres";
     sg_home_name := Some "Los Angeles Dodgers";
     sg_linescore :=
       Some {| ls_away_runs := Some 2; ls_home_runs := Some 5;
               ls_currentInning := Some 9; ls_inningState := Some "End" |};
     sg_gameDate := None;
     sg_detailedState := Some state |}.

Definition home_run_12 : play :=
  {| pl_batter_id := Some 660271; pl_event := Some "Home Run";
     pl_description := Some "Shohei Ohtani homers (30) on a fly ball.";
     pl_inning := Some 7; pl_halfInning := Some "bottom";
     pl_runners :=
       Some [ {| rn_movement := Some {| mv_start := None |} |} ];
     pl_atBatIndex := 12 |}.

Definition box_line_2_for_4 : box_player :=
  {| bp_person_id := Some 660271;
     bp_batting :=
       Some {| bl_hits := Some 2; bl_atBats := Some 4;
               bl_rbi := Some 1; bl_runs := Some 1 |} |}.

(** The same plate appearance, had it ended in a strikeout. *)
Definition strikeout_12 : play :=
  {| pl_batter_id := Some 660271; pl_event := Some "Strikeout";
     pl_description := Some "Shohei Ohtani strikes out swinging.";
     pl_inning := Some 7; pl_halfInning := Some "bottom";
     pl_runners :=
       Some [ {| rn_movement := Some {| mv_start := None |} |} ];
     pl_atBatIndex := 12 |}.

(** A single by Will Smith (669257), the next play of the same game. *)
Definition single_13 : play :=
  {| pl_batter_id := Some 669257; pl_event := Some "Single";
     pl_description := Some "Will Smith singles on a line drive.";
     pl_inning := Some 7; pl_halfInning := Some "bottom";
     pl_runners :=
       Some [ {| rn_movement := Some {| mv_start := None |} |} ];
     pl_atBatIndex := 13 |}.

Definition feed_777_of (plays : list play) : feed_response :=
  {| liveData :=
       Some {| ld_allPlays := Some plays;
               ld_away_players := Some [];
               ld_home_players := Some [("ID660271", box_line_2_for_4)] |} |}.

Definition season_275 : stats_response :=
  {| stats :=
       Some [ {| splits :=
                   Some [ {| sp_stat :=
                               Some {| ss_avg := Some ".275";
                                       ss_obp := Some ".340";
                                       ss_slg := Some ".480";
                                       ss_hits := Some 110;
                                       ss_atBats := Some 400;
                                       ss_rbi := Some 70;
                                       ss_runs := Some 80;
                                       ss_homeRuns := Some 30 |} |} ] |} ] |}.

(** Ohtani plays game 777, whose status is [state] and whose play list is
    [plays].  [stats_ok] tells whether the season-stats request succeeds.
    In [upstream_of] his latest completed at-bat is the home run 12. *)
Definition upstream_with (state : string) (stats_ok : bool)
    (plays : list play) : upstream :=
  {| GET_players :=
       Some {| people := Some [smith_catcher; ohtani_person; smith_pitcher] |};
     GET_person := λ i,
       if Z.eqb i 660271 then Some {| people := Some [ohtani_person] |}
       else if Z.eqb i 669257 then Some {| people := Some [smith_catcher] |}
       else None;
     GET_schedule := λ t,
       if Z.eqb t 119
       then Some {| dates := Some [ {| sd_games := Some [game_777 state] |} ] |}
       else None;
     GET_feed := λ k, if Z.eqb k 777 then Some (feed_777_of plays) else None;
     GET_stats := λ i,
       if stats_ok && Z.eqb i 660271 then Some season_275 else None |}.

Definition upstream_of (state : string) (stats_ok : bool) : upstream :=
  upstream_with state stats_ok [home_run_12].

Definition fresh (roster : list player_info) : state :=
  {| players_json := Some roster; last_atbats_json := None; writes := [];
     last_atbats := ∅; send_calls := []; console := [] |}.

(** A channel that delivers everything. *)
Definition open_channel : channel := {| send_raises := λ _, None |}.

(** A channel that delivers at-bat embeds and rejects the blue summary. *)
Definition no_summary_channel : channel :=
  {| send_raises := λ e,
       match em_color e with
       | blue => Some (HTTPException "403 Forbidden")
       | _ => None
       end |}.

(** A channel that rejects everything. *)
Definition closed_channel : channel :=
  {| send_raises := λ _, Some (HTTPException "403 Forbidden") |}.

End Scenario.

(** * Properties *)

Import MLBStatsAPI Bot.

(** ** Strings *)

Lemma append_cons (c : ascii) (s t : string) :
  String c s +:+ t = String c (s +:+ t).
Proof. reflexivity. Qed.

Lemma append_nil (t : string) : "" +:+ t = t.
Proof. reflexivity. Qed.

Lemma prefix_app (n h : string) :
  String.prefix n h = true ↔ ∃ post, h = n +:+ post.
Proof.
  revert h. induction n as [|c n IH]; intros h.
  - split; [intros _; by exists h | intros _; by destruct h].
  - destruct h as [|d h]; simpl.
    + split; [done | by intros [post ?]].
    + setoid_rewrite append_cons.
      destruct (ascii_dec c d) as [->|Hne].
      * rewrite IH. split; intros [post Hp]; exists post; congruence.
      * split; [done | intros [post Hp]; congruence].
Qed.

Lemma contains_nil (n : string) : Py.contains n "" = String.prefix n "".
Proof. unfold Py.contains. by destruct (String.prefix n ""). Qed.

Lemma contains_cons (n : string) (d : ascii) (h : string) :
  Py.contains n (String d h)
  = if String.prefix n (String d h) then true else Py.contains n h.
Proof. reflexivity. Qed.

(** [contains] is the substring test of Python's [in]. *)
Lemma contains_spec (n h : string) :
  Py.contains n h = true ↔ ∃ pre post, h = pre +:+ n +:+ post.
Proof.
  induction h as [|d h IH].
  - rewrite contains_nil, prefix_app. split.
    + intros [post Hp]. by exists "", post.
    + intros [pre [post Hh]]. destruct pre; [|done].
      rewrite append_nil in Hh. eauto.
  - rewrite contains_cons.
    destruct (String.prefix n (String d h)) eqn:Hp.
    + apply prefix_app in Hp as [post Hp]. split; [intros _|done].
      by exists "", post.
    + rewrite IH. split.
      * intros [pre [post ->]]. by exists (String d pre), post.
      * intros [pre [post Hh]]. destruct pre as [|c pre].
        -- rewrite append_nil in Hh.
           assert (String.prefix n (String d h) = true)
             by (apply prefix_app; eauto).
           congruence.
        -- rewrite append_cons in Hh. injection Hh as _ ->.
           by exists pre, post.
Qed.

Lemma in_list_spec (x : string) (xs : list string) :
  Py.in_list x xs = true ↔ x ∈ xs.
Proof.
  unfold Py.in_list. rewrite existsb_exists, list_elem_of_In. split.
  - intros [y [Hy Heq]]. apply String.eqb_eq in Heq. by subst.
  - intros Hin. exists x. split; [done | apply String.eqb_refl].
Qed.

(** [lstrip "0"] leaves no leading zero. *)
Lemma lstrip_zero_head (s : string) (r : string) :
  Py.lstrip "0" s ≠ String "0"%char r.
Proof.
  induction s as [|c s IH]; simpl; [done|].
  destruct (Ascii.eqb c "0") eqn:Hc; [done|].
  intros [= -> _]. by rewrite Ascii.eqb_refl in Hc.
Qed.

(** A string that does not start with a zero is left unchanged. *)
Lemma lstrip_zero_id (c : ascii) (s : string) :
  c ≠ "0"%char → Py.lstrip "0" (String c s) = String c s.
Proof.
  intros Hc. simpl. destruct (Ascii.eqb c "0") eqn:E; [|done].
  by apply Ascii.eqb_eq in E.
Qed.

(** ** Search ([search_player]) *)

Lemma search_loop_first (ul : string -> string) (q : string)
    (players : list person) :
  search_loop ul q players
  = _format_player_info
      <$> head (List.filter
                  (λ p, Py.contains q (Py.lower ul (p_fullName p))) players).
Proof.
  induction players as [|p players IH]; simpl; [done|].
  by destruct (Py.contains q (Py.lower ul (p_fullName p))).
Qed.

(** C3: the search is stated to return every entity whose name contains the
    query.  [search_player] returns at the first match: with two players
    named Will Smith in the upstream list the query finds both names, and
    the result is the first of them alone; the second (id 519293) is lost.
    When nothing matches the result is [None]. *)
Theorem search_player_returns_first_match_only (ul : string -> string) :
  let up := Scenario.upstream_of "In Progress" true in
  List.filter (λ p, Py.contains (Py.lower ul "will smith")
                      (Py.lower ul (p_fullName p)))
    (default [] (people (_request (GET_players up))))
  = [Scenario.smith_catcher; Scenario.smith_pitcher]
  ∧ search_player ul up "will smith"
    = Some (_format_player_info Scenario.smith_catcher)
  ∧ id <$> search_player ul up "will smith" = Some 669257
  ∧ search_player ul up "nobody" = None.
Proof. vm_compute. done. Qed.

(** ** Derived flags of an at-bat ([_format_atbat]) *)

Lemma was_hit_spec (p : play) (g : game_info) (st : season_stats) :
  was_hit (_format_atbat p g st) = true
  ↔ default "" (pl_event p) ∈ ["Single"; "Double"; "Triple"; "Home Run"].
Proof.
  change (was_hit (_format_atbat p g st))
    with (Py.in_list (default "" (pl_event p)) hit_events).
  apply in_list_spec.
Qed.

Lemma starts_in_scoring_position_spec (r : runner) :
  starts_in_scoring_position r = true
  ↔ ∃ m, rn_movement r = Some m
         ∧ (mv_start m = Some "2B" ∨ mv_start m = Some "3B").
Proof.
  unfold starts_in_scoring_position.
  destruct (rn_movement r) as [m|].
  - change (default ∅ (Some m)) with m.
    destruct (mv_start m) as [base|] eqn:Hb.
    + rewrite (in_list_spec base ["2B"; "3B"]). split.
      * rewrite !elem_of_cons, elem_of_nil.
        intros Hin. exists m. split; [done|]. rewrite Hb.
        destruct Hin as [->|[->|[]]]; [by left | by right].
      * intros [m' [[= <-] Hm]]. rewrite Hb in Hm.
        rewrite !elem_of_cons. destruct Hm as [[= ->]|[= ->]]; auto.
    + split; [done|]. intros [m' [[= <-] Hm]]. rewrite Hb in Hm.
      by destruct Hm.
  - change (mv_start (default ∅ None)) with (@None string).
    split; [done|]. by intros [m [? _]].
Qed.

(** C9: the RISP flag of a constructed at-bat is true exactly when some
    runner record of the play has a movement whose start base is 2B or 3B;
    it is false for a play without runner records and for a play none of
    whose movements starts at second or third. *)
Theorem risp_iff_runner_starts_on_second_or_third
    (p : play) (g : game_info) (st : season_stats) :
  (risp (_format_atbat p g st) = true
   ↔ ∃ r m, r ∈ default [] (pl_runners p)
            ∧ rn_movement r = Some m
            ∧ (mv_start m = Some "2B" ∨ mv_start m = Some "3B"))
  ∧ (default [] (pl_runners p) = [] → risp (_format_atbat p g st) = false)
  ∧ ((∀ r m, r ∈ default [] (pl_runners p) → rn_movement r = Some m →
             mv_start m ≠ Some "2B" ∧ mv_start m ≠ Some "3B")
     → risp (_format_atbat p g st) = false).
Proof.
  assert (Hiff : risp (_format_atbat p g st) = true
     ↔ ∃ r m, r ∈ default [] (pl_runners p)
              ∧ rn_movement r = Some m
              ∧ (mv_start m = Some "2B" ∨ mv_start m = Some "3B")).
  { change (risp (_format_atbat p g st))
      with (existsb starts_in_scoring_position (default [] (pl_runners p))).
    rewrite existsb_exists. split.
    - intros [r [Hin Hr]]. apply starts_in_scoring_position_spec in Hr
        as [m [Hm Hs]].
      exists r, m. by rewrite list_elem_of_In.
    - intros [r [m [Hin [Hm Hs]]]]. exists r. split.
      + by apply list_elem_of_In.
      + apply starts_in_scoring_position_spec. eauto. }
  split; [exact Hiff|]. split.
  - intros Hnil. apply not_true_is_false. rewrite Hiff, Hnil.
    intros [r [m [Hin _]]]. by apply elem_of_nil in Hin.
  - intros Hnone. apply not_true_is_false. rewrite Hiff.
    intros [r [m [Hin [Hm Hs]]]].
    destruct (Hnone r m Hin Hm) as [H2 H3]. by destruct Hs.
Qed.

(** One runner who starts on third sets the flag; the batter's own
    movement (no start base) does not. *)
Lemma risp_iff_runner_starts_on_second_or_third_witness :
  let p := {| pl_batter_id := Some 660271; pl_event := Some "Single";
              pl_description := Some "singles"; pl_inning := None;
              pl_halfInning := None;
              pl_runners := Some [ {| rn_movement := Some {| mv_start := None |} |};
                                   {| rn_movement := Some {| mv_start := Some "3B" |} |} ];
              pl_atBatIndex := 4 |} in
  risp (_format_atbat p (_format_game_info Scenario.no_time (Scenario.game_777 "Live"))
          zero_season_stats) = true
  ∧ risp (_format_atbat Scenario.home_run_12
            (_format_game_info Scenario.no_time (Scenario.game_777 "Live"))
            zero_season_stats) = false.
Proof.
  split.
  - apply (proj1 (risp_iff_runner_starts_on_second_or_third _ _ _)).
    exists {| rn_movement := Some {| mv_start := Some "3B" |} |},
           {| mv_start := Some "3B" |}.
    split; [|split; [reflexivity | right; reflexivity]].
    simpl. apply list_elem_of_In. simpl. right. left. reflexivity.
  - apply (proj2 (proj2 (risp_iff_runner_starts_on_second_or_third
                           Scenario.home_run_12 _ _))).
    intros r m Hin Hm. simpl in Hin.
    apply list_elem_of_In in Hin. simpl in Hin.
    destruct Hin as [<-|[]]. simpl in Hm. injection Hm as <-.
    split; discriminate.
Defined.

(** ** Season stats and the slash line *)

Lemma format_average_examples :
  format_average (Some "0.275") = ".275"
  ∧ format_average (Some ".275") = ".275"
  ∧ format_average None = ".000".
Proof. done. Qed.

(** A formatted average never starts with a zero, unless every character of
    the input was a zero and the [or "0"] fallback applies. *)
Lemma format_average_no_leading_zero (v : option string) (r : string) :
  format_average v = String "0"%char r → r = "".
Proof.
  unfold format_average, Py.or_else.
  destruct (Py.truthy (Py.lstrip "0" (default ".000" v))).
  - intros H. by apply lstrip_zero_head in H.
  - by intros [= <-].
Qed.

Lemma season_stats_without_split (up : upstream) (player_id : Z) :
  (∀ g, stats (_request (GET_stats up player_id)) = Some g →
        match g with
        | [] => True
        | g0 :: _ => default [] (splits g0) = []
        end) →
  _get_player_season_stats up player_id = zero_season_stats.
Proof.
  intros H. unfold _get_player_season_stats.
  destruct (stats (_request (GET_stats up player_id))) as [g|] eqn:Hg; simpl.
  - specialize (H g eq_refl). destruct g as [|g0 ?]; [done|]. by rewrite H.
  - done.
Qed.

(** C7: the season averages are formatted without a leading zero and the
    fallback record holds [".000"], but [post_atbat_update] prefixes each
    formatted field with a dot of its own.  For a season line of
    .275/.340/.480 the slash line of the posted embed is
    ["..275 / ..340 / ..480"], not [".275 / .340 / .480"]; when the season
    request fails it is ["..000 / ..000 / ..000"]. *)
Theorem slash_line_doubles_the_dot :
  let slash_lines (up : upstream) :=
    map (λ e, ef_value <$> em_fields e !! 1%nat)
      (notified (check_games Scenario.no_time 0 up (Some Scenario.open_channel))
         (Scenario.fresh [Scenario.ohtani])) in
  let st := _get_player_season_stats (Scenario.upstream_of "In Progress" true) 660271 in
  (avg st, obp st, slg st) = (".275", ".340", ".480")
  ∧ slash_lines (Scenario.upstream_of "In Progress" true)
    = [Some "..275 / ..340 / ..480"]
  ∧ _get_player_season_stats (Scenario.upstream_of "In Progress" false) 660271
    = zero_season_stats
  ∧ slash_lines (Scenario.upstream_of "In Progress" false)
    = [Some "..000 / ..000 / ..000"].
Proof. vm_compute. done. Qed.

(** The doubled dot is systematic: whatever the stats, each field is
    prefixed once more. *)
Lemma slash_line_shape (player : player_info) (ab : atbat) (g : game_info) :
  ef_value <$> em_fields (atbat_embed player ab g) !! 1%nat
  = Some ("." +:+ avg (ab_stats ab) +:+ " / ." +:+ obp (ab_stats ab)
            +:+ " / ." +:+ slg (ab_stats ab)).
Proof. reflexivity. Qed.

(** ** The game summary *)

(** No game that the poll loop sees carries a [player_stats] key. *)
Lemma game_today_has_no_player_stats
    (ft : string -> option string) (up : upstream) (pid : Z) (g : game_info) :
  get_player_game_today ft up pid = Some g → player_stats g = None.
Proof.
  unfold get_player_game_today.
  destruct (people _) as [[|first ?]|]; try done.
  destruct (tr_id _) as [tid|]; try done.
  destruct (Z.eqb tid 0); try done.
  destruct (default [] _) as [|date0 ?]; try done.
  destruct (sd_games date0) as [[|game ?]|]; try done.
  by intros [= <-].
Qed.

(** Hence the summary of such a game always reads 0-for-0. *)
Lemma summary_final_line_is_zero
    (ft : string -> option string) (up : upstream) (player : player_info)
    (g : game_info) :
  get_player_game_today ft up (id player) = Some g →
  head (em_fields (summary_embed player g))
  = Some {| ef_name := "Final Line"; ef_value := "0-for-0"; ef_inline := true |}.
Proof.
  intros Hg. apply game_today_has_no_player_stats in Hg.
  unfold summary_embed. rewrite Hg. reflexivity.
Qed.

(** C5: the summary of a completed game is stated to carry the final line
    of the box score.  [check_games] never calls [get_player_game_stats]
    and [post_game_summary] reads a key that [_format_game_info] never
    sets: for a Final game in which the box score credits the player with
    2 hits in 4 at-bats, 1 RBI and 1 run, the lookup would return that
    line, and the posted summary reads 0-for-0 with no RBI and no Runs
    field. *)
Theorem game_summary_ignores_box_score :
  let up := Scenario.upstream_of "Final" true in
  get_player_game_stats up 660271 777
  = {| gs_hits := 2; gs_atbats := 4; gs_rbi := 1; gs_runs := 1 |}
  ∧ map (λ e, (em_title e, map (λ f, (ef_name f, ef_value f)) (em_fields e)))
      (drop 1 (notified (check_games Scenario.no_time 0 up (Some Scenario.open_channel))
                 (Scenario.fresh [Scenario.ohtani])))
    = [ ("📊 Game Complete - Shohei Ohtani",
         [ ("Final Line", "0-for-0");
           ("Game Result", "**San Diego Padres 2, Los Angeles Dodgers 5**") ]) ].
Proof. vm_compute. done. Qed.

(** ** One roster entry of the poll loop ([check_player]) *)

Section CheckPlayer.

Variable ft : string -> option string.

(** What [check_player] does once both lookups have answered. *)
Lemma check_player_found (up : upstream) (ch : channel) (player : player_info)
    (g : game_info) (ab : atbat) (s : state) :
  get_player_game_today ft up (id player) = Some g →
  get_latest_atbat up (id player) g = Some ab →
  check_player ft up ch player s =
    if bool_decide (last_atbats s !! Py.str (id player) = Some (ab_id ab))
    then (inr tt, s)
    else match send_raises ch (atbat_embed player ab g) with
         | Some x => (inl x, log_send (atbat_embed player ab g) (Some x) s)
         | None =>
             if gameComplete g
             then send ch (summary_embed player g) (marked player ab g s)
             else (inr tt, marked player ab g s)
         end.
Proof.
  intros Hg Hab. unfold check_player. rewrite Hg, Hab.
  unfold mbind, M_bind, gets. simpl.
  destruct (decide (last_atbats s !! Py.str (id player) = Some (ab_id ab)))
    as [Heq|Hne].
  - rewrite (bool_decide_eq_true_2 _ Heq).
    rewrite bool_decide_eq_false_2; [done|]. intros H; apply H. by symmetry.
  - rewrite (bool_decide_eq_false_2 _ Hne).
    rewrite bool_decide_eq_true_2 by (intros H; by apply Hne).
    unfold post_atbat_update, send at 1.
    destruct (send_raises ch (atbat_embed player ab g)) as [x|]; [done|].
    unfold modify, save_json, modify. simpl.
    destruct (gameComplete g); reflexivity.
Qed.

(** Without a game or without a completed at-bat nothing happens. *)
Lemma check_player_no_game (up : upstream) (ch : channel)
    (player : player_info) (s : state) :
  get_player_game_today ft up (id player) = None →
  check_player ft up ch player s = (inr tt, s).
Proof. intros Hg. unfold check_player. by rewrite Hg. Qed.

Lemma check_player_no_atbat (up : upstream) (ch : channel)
    (player : player_info) (g : game_info) (s : state) :
  get_player_game_today ft up (id player) = Some g →
  get_latest_atbat up (id player) g = None →
  check_player ft up ch player s = (inr tt, s).
Proof. intros Hg Hab. unfold check_player. by rewrite Hg, Hab. Qed.

End CheckPlayer.

Section Observations.

Variable ft : string -> option string.
Variables (up : upstream) (ch : channel) (player : player_info).
Variables (g : game_info) (ab : atbat).

Hypothesis Hgame : get_player_game_today ft up (id player) = Some g.
Hypothesis Hatbat : get_latest_atbat up (id player) g = Some ab.

Let key := Py.str (id player).
Let e := atbat_embed player ab g.

Lemma check_player_calls (s : state) :
  new_calls (check_player ft up ch player) s =
    if bool_decide (last_atbats s !! key = Some (ab_id ab)) then []
    else match send_raises ch e with
         | Some x => [(e, Some x)]
         | None =>
             (e, None)
             :: (if gameComplete g
                 then [(summary_embed player g,
                        send_raises ch (summary_embed player g))]
                 else [])
         end.
Proof.
  unfold new_calls, exec.
  rewrite (check_player_found ft up ch player g ab s Hgame Hatbat).
  fold key e. case_bool_decide; simpl.
  - by rewrite drop_all.
  - destruct (send_raises ch e) as [x|]; simpl.
    + by rewrite drop_app_length.
    + destruct (gameComplete g); simpl.
      * unfold send.
        destruct (send_raises ch (summary_embed player g)); simpl;
          by rewrite <- app_assoc, drop_app_length.
      * by rewrite drop_app_length.
Qed.

Lemma check_player_markers (s : state) :
  let s' := exec (check_player ft up ch player) s in
  if bool_decide (last_atbats s !! key = Some (ab_id ab))
  then s' = s
  else match send_raises ch e with
       | Some _ =>
           last_atbats s' = last_atbats s
           ∧ last_atbats_json s' = last_atbats_json s
           ∧ writes s' = writes s
       | None =>
           last_atbats s' = <[key := ab_id ab]> (last_atbats s)
           ∧ last_atbats_json s' = Some (<[key := ab_id ab]> (last_atbats s))
           ∧ writes s' = (writes s ++ ["last_atbats.json"])%list
       end.
Proof.
  unfold exec.
  rewrite (check_player_found ft up ch player g ab s Hgame Hatbat).
  fold key e. case_bool_decide; simpl; [done|].
  destruct (send_raises ch e) as [x|]; simpl; [done|].
  destruct (gameComplete g); simpl; [|done].
  unfold send. by destruct (send_raises ch (summary_embed player g)).
Qed.

End Observations.

(** The summary embed is never an at-bat embed. *)
Lemma summary_is_not_atbat (p q : player_info) (ab : atbat) (g h : game_info) :
  summary_embed p g ≠ atbat_embed q ab h.
Proof.
  intros Heq. apply (f_equal em_color) in Heq. simpl in Heq.
  by destruct (was_hit ab).
Qed.

(** Case analysis on what [check_player] did, from its two observations. *)
Ltac poll_cases ft up ch player g ab s Hg Hab :=
  let Hc := fresh "Hcalls" in
  let Hm := fresh "Hmarks" in
  pose proof (check_player_calls ft up ch player g ab Hg Hab s) as Hc;
  pose proof (check_player_markers ft up ch player g ab Hg Hab s) as Hm;
  simpl in Hm;
  unfold posted, notified;
  destruct (bool_decide (last_atbats s !! Py.str (id player) = Some (ab_id ab)))
    eqn:Hseen;
  [ apply bool_decide_eq_true in Hseen
  | apply bool_decide_eq_false in Hseen;
    destruct (send_raises ch (atbat_embed player ab g)) as [?x|] eqn:Hsend;
    [ | destruct (gameComplete g) eqn:Hfinal ] ];
  rewrite ?Hc; simpl.

(** After a poll that delivered the at-bat, or that found it already
    marked, the marker of the entity is the id of that at-bat. *)
Lemma marker_after_poll
    (ft : string -> option string) (up : upstream) (ch : channel)
    (player : player_info) (g : game_info) (ab : atbat) (s : state) :
  get_player_game_today ft up (id player) = Some g →
  get_latest_atbat up (id player) g = Some ab →
  atbat_embed player ab g ∈ notified (check_player ft up ch player) s
  ∨ last_atbats s !! Py.str (id player) = Some (ab_id ab) →
  last_atbats (exec (check_player ft up ch player) s) !! Py.str (id player)
  = Some (ab_id ab).
Proof.
  intros Hg Hab. poll_cases ft up ch player g ab s Hg Hab.
  - intros _. by rewrite Hmarks.
  - intros [Hin|?]; [|done]. by apply elem_of_nil in Hin.
  - intros _. destruct Hmarks as [-> _]. apply lookup_insert_eq.
  - intros _. destruct Hmarks as [-> _]. apply lookup_insert_eq.
Qed.

(** A poll that finds the marked id as the latest id makes no call. *)
Lemma repoll_posts_nothing
    (ft : string -> option string) (up : upstream) (ch : channel)
    (player : player_info) (g : game_info) (ab : atbat) (s : state) :
  get_player_game_today ft up (id player) = Some g →
  get_latest_atbat up (id player) g = Some ab →
  last_atbats s !! Py.str (id player) = Some (ab_id ab) →
  posted (check_player ft up ch player) s = []
  ∧ exec (check_player ft up ch player) s = s.
Proof.
  intros Hg Hab Hseen. split.
  - unfold posted. rewrite (check_player_calls ft up ch player g ab Hg Hab).
    by rewrite bool_decide_eq_true_2.
  - pose proof (check_player_markers ft up ch player g ab Hg Hab s) as Hm.
    simpl in Hm. by rewrite bool_decide_eq_true_2 in Hm.
Qed.

(** The [try] block of one entry, against the dict in memory: when the
    lookups give a game and a latest completed at-bat, the at-bat
    notification is posted exactly when the id of that at-bat differs from
    the marker of the entity in the dict; with no marker it is the first
    call made.  Once the notification is delivered, the marker of the
    entity, in memory and in the file, is that id.  A later run of the
    block that finds the same latest id posts nothing. *)
Lemma atbat_posted_iff_id_differs
    (ft : string -> option string) (up : upstream) (ch : channel)
    (player : player_info) (g : game_info) (ab : atbat) (s : state) :
  get_player_game_today ft up (id player) = Some g →
  get_latest_atbat up (id player) g = Some ab →
  let key := Py.str (id player) in
  let poll := check_player ft up ch player in
  let e := atbat_embed player ab g in
  (e ∈ posted poll s ↔ last_atbats s !! key ≠ Some (ab_id ab))
  ∧ (last_atbats s !! key = None → head (posted poll s) = Some e)
  ∧ (e ∈ notified poll s →
       last_atbats (exec poll s) !! key = Some (ab_id ab)
       ∧ last_atbats_json (exec poll s) = Some (last_atbats (exec poll s)))
  ∧ (∀ up' g' ab',
       get_player_game_today ft up' (id player) = Some g' →
       get_latest_atbat up' (id player) g' = Some ab' →
       ab_id ab' = ab_id ab →
       e ∈ notified poll s ∨ last_atbats s !! key = Some (ab_id ab) →
       posted (check_player ft up' ch player) (exec poll s) = []).
Proof.
  intros Hg Hab key poll e. subst key poll e.
  split; [|split; [|split]].
  - poll_cases ft up ch player g ab s Hg Hab.
    + rewrite elem_of_nil. tauto.
    + rewrite elem_of_cons. tauto.
    + rewrite elem_of_cons. tauto.
    + rewrite elem_of_cons. tauto.
  - intros Hnone.
    poll_cases ft up ch player g ab s Hg Hab; try done. congruence.
  - intros Hin. split; [apply (marker_after_poll ft up ch player g ab); auto|].
    revert Hin. poll_cases ft up ch player g ab s Hg Hab.
    + by rewrite elem_of_nil.
    + by rewrite elem_of_nil.
    + intros _. by destruct Hmarks as [-> [-> _]].
    + intros _. by destruct Hmarks as [-> [-> _]].
  - intros up' g' ab' Hg' Hab' Hid Hdone.
    apply (marker_after_poll ft up ch player g ab s Hg Hab) in Hdone.
    rewrite <- Hid in Hdone.
    apply (repoll_posts_nothing ft up' ch player g' ab' _ Hg' Hab' Hdone).
Qed.

(** The scenario of the specification: Shohei Ohtani (660271), no prior
    marker, one completed play with id 12.  The first poll posts the
    at-bat and leaves marker 12; the second poll posts nothing. *)
Lemma atbat_posted_iff_id_differs_witness :
  let up := Scenario.upstream_of "In Progress" true in
  let g := _format_game_info Scenario.no_time (Scenario.game_777 "In Progress") in
  let ab := _format_atbat Scenario.home_run_12 g (_get_player_season_stats up 660271) in
  let poll := check_player Scenario.no_time up Scenario.open_channel Scenario.ohtani in
  let s := Scenario.fresh [Scenario.ohtani] in
  get_player_game_today Scenario.no_time up 660271 = Some g
  ∧ get_latest_atbat up 660271 g = Some ab
  ∧ head (posted poll s) = Some (atbat_embed Scenario.ohtani ab g)
  ∧ last_atbats (exec poll s) !! "660271" = Some 12
  ∧ posted poll (exec poll s) = [].
Proof.
  intros up g ab poll s.
  assert (Hg : get_player_game_today Scenario.no_time up (id Scenario.ohtani)
               = Some g) by reflexivity.
  assert (Hab : get_latest_atbat up (id Scenario.ohtani) g = Some ab)
    by reflexivity.
  assert (Hin : atbat_embed Scenario.ohtani ab g ∈ notified poll s).
  { apply list_elem_of_In. vm_compute. left. reflexivity. }
  destruct (atbat_posted_iff_id_differs Scenario.no_time up
              Scenario.open_channel Scenario.ohtani g ab s Hg Hab)
    as (Hiff & Hfirst & Hmark & Hagain).
  split; [exact Hg|]. split; [exact Hab|]. split; [|split].
  - apply Hfirst. reflexivity.
  - exact (proj1 (Hmark Hin)).
  - apply (Hagain up g ab Hg Hab eq_refl). left. exact Hin.
Defined.

(** ** The loop over the roster *)

Section Loop.

Variable ft : string -> option string.
Variables (up : upstream) (ch : channel).

(** One iteration: the [try] block with its [except] clause. *)
Let entry (player : player_info) : M unit :=
  try_except (check_player ft up ch player) (on_error player).

(** No exception leaves an iteration. *)
Lemma entry_returns (player : player_info) (s : state) :
  fst (entry player s) = inr tt.
Proof.
  unfold entry, try_except.
  destruct (check_player ft up ch player s) as [[x|[]] s']; reflexivity.
Qed.

(** The [except] clause only prints. *)
Lemma entry_state (player : player_info) (s : state) :
  let s1 := exec (check_player ft up ch player) s in
  let s2 := exec (entry player) s in
  players_json s2 = players_json s1
  ∧ last_atbats_json s2 = last_atbats_json s1
  ∧ writes s2 = writes s1
  ∧ last_atbats s2 = last_atbats s1
  ∧ send_calls s2 = send_calls s1.
Proof.
  unfold entry, try_except, exec.
  destruct (check_player ft up ch player s) as [[x|[]] s']; done.
Qed.

Lemma for_each_player_cons (player : player_info) (rest : list player_info)
    (s : state) :
  for_each_player ft up ch (player :: rest) s
  = for_each_player ft up ch rest (exec (entry player) s).
Proof.
  simpl. unfold mbind, M_bind, exec. fold (entry player).
  pose proof (entry_returns player s) as Hr.
  destruct (entry player s) as [[x|[]] s']; simpl in *; [done|reflexivity].
Qed.

(** The loop never raises. *)
Lemma for_each_player_returns (roster : list player_info) (s : state) :
  fst (for_each_player ft up ch roster s) = inr tt.
Proof.
  revert s. induction roster as [|p rest IH]; intros s; [done|].
  rewrite for_each_player_cons. apply IH.
Qed.

(** The loop over [before ++ rest] is the loop over [rest] started where
    the loop over [before] ended. *)
Lemma for_each_player_app (before rest : list player_info) (s : state) :
  for_each_player ft up ch (before ++ rest) s
  = for_each_player ft up ch rest (exec (for_each_player ft up ch before) s).
Proof.
  revert s. induction before as [|p before IH]; intros s; [done|].
  rewrite <- app_comm_cons, !for_each_player_cons. rewrite IH.
  unfold exec at 3. by rewrite for_each_player_cons.
Qed.

End Loop.

(** ** Marker persistence *)

(** C2: when the at-bat notification of an entity is delivered, the marker
    file is written with the updated dict before the loop turns to the next
    roster entry, and this is the only write of the entry.  When the post
    raises, the marker of the entity is unchanged in memory and in the
    file, and nothing is written.  The entry writes only after a delivered
    notification. *)
Theorem marker_saved_right_after_delivery
    (ft : string -> option string) (up : upstream) (ch : channel)
    (player : player_info) (g : game_info) (ab : atbat) (s : state) :
  get_player_game_today ft up (id player) = Some g →
  get_latest_atbat up (id player) g = Some ab →
  let key := Py.str (id player) in
  let poll := check_player ft up ch player in
  let e := atbat_embed player ab g in
  (e ∈ notified poll s →
     ∃ s1,
       (∀ rest, for_each_player ft up ch (player :: rest) s
                = for_each_player ft up ch rest s1)
       ∧ last_atbats_json s1 = Some (<[key := ab_id ab]> (last_atbats s))
       ∧ writes s1 = (writes s ++ ["last_atbats.json"])%list)
  ∧ (∀ x, send_raises ch e = Some x →
       last_atbats (exec poll s) = last_atbats s
       ∧ last_atbats_json (exec poll s) = last_atbats_json s
       ∧ writes (exec poll s) = writes s)
  ∧ (writes (exec poll s) ≠ writes s
     ∨ last_atbats (exec poll s) ≠ last_atbats s
     ∨ last_atbats_json (exec poll s) ≠ last_atbats_json s →
     e ∈ notified poll s).
Proof.
  intros Hg Hab key poll e. subst key poll e.
  split; [|split].
  - intros Hin.
    exists (exec (try_except (check_player ft up ch player) (on_error player)) s).
    split; [intros rest; apply for_each_player_cons|].
    destruct (entry_state ft up ch player s) as (_ & -> & -> & _).
    revert Hin. poll_cases ft up ch player g ab s Hg Hab.
    + by rewrite elem_of_nil.
    + by rewrite elem_of_nil.
    + intros _. by destruct Hmarks as (_ & -> & ->).
    + intros _. by destruct Hmarks as (_ & -> & ->).
  - intros x Hx.
    pose proof (check_player_markers ft up ch player g ab Hg Hab s) as Hm.
    simpl in Hm. rewrite Hx in Hm.
    case_bool_decide; [by rewrite Hm | exact Hm].
  - poll_cases ft up ch player g ab s Hg Hab.
    + rewrite Hmarks. intros [?|[?|?]]; done.
    + destruct Hmarks as (-> & -> & ->). intros [?|[?|?]]; done.
    + intros _. apply list_elem_of_here.
    + intros _. apply list_elem_of_here.
Qed.

(** With a channel that rejects every embed the marker file is never
    created; with one that delivers, it holds marker 12 when the at-bat
    post returns. *)
Lemma marker_saved_right_after_delivery_witness :
  let up := Scenario.upstream_of "In Progress" true in
  let g := _format_game_info Scenario.no_time (Scenario.game_777 "In Progress") in
  let ab := _format_atbat Scenario.home_run_12 g (_get_player_season_stats up 660271) in
  let s := Scenario.fresh [Scenario.ohtani; Scenario.judge] in
  (∃ s1,
     for_each_player Scenario.no_time up Scenario.open_channel
       [Scenario.ohtani; Scenario.judge] s
     = for_each_player Scenario.no_time up Scenario.open_channel [Scenario.judge] s1
     ∧ last_atbats_json s1 = Some {[ "660271" := 12 ]})
  ∧ last_atbats_json
      (exec (check_player Scenario.no_time up Scenario.closed_channel Scenario.ohtani) s)
    = None.
Proof.
  intros up g ab s.
  assert (Hg : get_player_game_today Scenario.no_time up (id Scenario.ohtani)
               = Some g) by reflexivity.
  assert (Hab : get_latest_atbat up (id Scenario.ohtani) g = Some ab)
    by reflexivity.
  split.
  - destruct (proj1 (marker_saved_right_after_delivery Scenario.no_time up
                       Scenario.open_channel Scenario.ohtani g ab s Hg Hab))
      as (s1 & Hnext & Hfile & _).
    { apply list_elem_of_In. vm_compute. left. reflexivity. }
    exists s1. split; [apply Hnext | exact Hfile].
  - destruct (proj1 (proj2 (marker_saved_right_after_delivery Scenario.no_time up
                       Scenario.closed_channel Scenario.ohtani g ab s Hg Hab))
                (HTTPException "403 Forbidden") eq_refl)
      as (_ & Hfile & _).
    exact Hfile.
Defined.

(** ** The game summary trigger *)

(** C6: the summary is to fire on the cycle where completion is first
    observed, and [post_game_summary] is documented to post "when the game
    completes".  It does not.  Here the first tick sees the game in
    progress and posts at-bat 12; the second tick is the first to see the
    game Final, with at-bat 12 still the latest; it posts nothing, and
    neither does the third.  No summary is ever sent for the completed
    game: the call of [post_game_summary] sits inside the branch of a new
    at-bat id. *)
Lemma summary_missed_when_game_ends_without_new_atbat :
  let up (status : string) := Scenario.upstream_of status true in
  let poll (status : string) :=
    check_games Scenario.no_time 0 (up status) (Some Scenario.open_channel) in
  let s1 := exec (poll "In Progress") (Scenario.fresh [Scenario.ohtani]) in
  let s2 := exec (poll "Final") s1 in
  let s3 := exec (poll "Final") s2 in
  gameComplete <$> get_player_game_today Scenario.no_time (up "In Progress") 660271
  = Some false
  ∧ gameComplete <$> get_player_game_today Scenario.no_time (up "Final") 660271
    = Some true
  ∧ map em_title (posted (poll "In Progress") (Scenario.fresh [Scenario.ohtani]))
    = ["⚾ Shohei Ohtani - At Bat"]
  ∧ posted (poll "Final") s1 = []
  ∧ posted (poll "Final") s2 = []
  ∧ map em_title (delivered s3) = ["⚾ Shohei Ohtani - At Bat"].
Proof. vm_compute. done. Qed.

(** What the entry does about the summary: it posts it exactly when the
    game of the poll is complete and the at-bat notification of that poll
    was delivered, once, right after the at-bat; a later poll that finds the
    same latest at-bat id posts nothing. *)
Lemma summary_posted_with_new_atbat_of_final_game
    (ft : string -> option string) (up : upstream) (ch : channel)
    (player : player_info) (g : game_info) (ab : atbat) (s : state) :
  get_player_game_today ft up (id player) = Some g →
  get_latest_atbat up (id player) g = Some ab →
  let key := Py.str (id player) in
  let poll := check_player ft up ch player in
  let e := atbat_embed player ab g in
  let summary := summary_embed player g in
  (summary ∈ posted poll s ↔ gameComplete g = true ∧ e ∈ notified poll s)
  ∧ (gameComplete g = true → e ∈ notified poll s →
     posted poll s = [e; summary])
  ∧ (∀ up' g' ab',
       get_player_game_today ft up' (id player) = Some g' →
       get_latest_atbat up' (id player) g' = Some ab' →
       ab_id ab' = ab_id ab →
       e ∈ notified poll s ∨ last_atbats s !! key = Some (ab_id ab) →
       posted (check_player ft up' ch player) (exec poll s) = []).
Proof.
  intros Hg Hab key poll e summary. subst key poll e summary.
  pose proof (summary_is_not_atbat player player ab g g) as Hne.
  split; [|split].
  - poll_cases ft up ch player g ab s Hg Hab.
    + rewrite !elem_of_nil. tauto.
    + rewrite elem_of_cons, !elem_of_nil. tauto.
    + rewrite !elem_of_cons, elem_of_nil. split; [intros _|tauto].
      split; [done|].
      destruct (send_raises ch (summary_embed player g)); simpl;
        rewrite ?elem_of_cons; by left.
    + rewrite !elem_of_cons, !elem_of_nil. split; [tauto|]. by intros [? _].
  - intros Hfin.
    poll_cases ft up ch player g ab s Hg Hab.
    + by rewrite elem_of_nil.
    + by rewrite elem_of_nil.
    + done.
    + congruence.
  - intros up' g' ab' Hg' Hab' Hid Hdone.
    apply (marker_after_poll ft up ch player g ab s Hg Hab) in Hdone.
    rewrite <- Hid in Hdone.
    apply (repoll_posts_nothing ft up' ch player g' ab' _ Hg' Hab' Hdone).
Qed.

(** In a Final game a new at-bat is followed by one summary, and the next
    poll is silent. *)
Lemma summary_posted_with_new_atbat_of_final_game_witness :
  let up := Scenario.upstream_of "Final" true in
  let g := _format_game_info Scenario.no_time (Scenario.game_777 "Final") in
  let ab := _format_atbat Scenario.home_run_12 g (_get_player_season_stats up 660271) in
  let poll := check_player Scenario.no_time up Scenario.open_channel Scenario.ohtani in
  let s := Scenario.fresh [Scenario.ohtani] in
  posted poll s
  = [atbat_embed Scenario.ohtani ab g; summary_embed Scenario.ohtani g]
  ∧ posted poll (exec poll s) = [].
Proof.
  intros up g ab poll s.
  assert (Hg : get_player_game_today Scenario.no_time up (id Scenario.ohtani)
               = Some g) by reflexivity.
  assert (Hab : get_latest_atbat up (id Scenario.ohtani) g = Some ab)
    by reflexivity.
  assert (Hin : atbat_embed Scenario.ohtani ab g ∈ notified poll s).
  { apply list_elem_of_In. vm_compute. left. reflexivity. }
  destruct (summary_posted_with_new_atbat_of_final_game Scenario.no_time up
              Scenario.open_channel Scenario.ohtani g ab s Hg Hab)
    as (_ & Honce & Hagain).
  split.
  - apply Honce; [reflexivity | exact Hin].
  - apply (Hagain up g ab Hg Hab eq_refl). left. exact Hin.
Defined.

(** ** Failures inside one roster entry *)

(** What a failed request does to the two lookups. *)
Lemma no_game_without_profile
    (ft : string -> option string) (up : upstream) (pid : Z) :
  GET_person up pid = None → get_player_game_today ft up pid = None.
Proof. intros H. unfold get_player_game_today. by rewrite H. Qed.

Lemma no_game_without_schedule
    (ft : string -> option string) (up : upstream) (pid : Z)
    (first : person) (others : list person) (tid : Z) :
  people (_request (GET_person up pid)) = Some (first :: others) →
  tr_id (default ∅ (p_currentTeam first)) = Some tid →
  GET_schedule up tid = None →
  get_player_game_today ft up pid = None.
Proof.
  intros Hp Ht Hs. unfold get_player_game_today. rewrite Hp, Ht.
  destruct (Z.eqb tid 0); [done|]. by rewrite Hs.
Qed.

Lemma no_atbat_without_feed (up : upstream) (pid : Z) (g : game_info)
    (pk : Z) :
  game_pk g = Some pk →
  GET_feed up pk = None →
  get_latest_atbat up pid g = None.
Proof.
  intros Hpk Hf. unfold get_latest_atbat. rewrite Hpk. simpl.
  destruct (Z.eqb pk 0); simpl; [done|]. by rewrite Hf.
Qed.

(** A failed season-stats request does not keep [get_latest_atbat] from
    answering: the at-bat carries the fallback stats. *)
Lemma latest_atbat_without_stats (up : upstream) (pid : Z) (g : game_info)
    (pk : Z) (feed : feed_response) (live : live_data) (latest : play) :
  game_pk g = Some pk → pk ≠ 0 →
  GET_feed up pk = Some feed →
  liveData feed = Some live →
  last (List.filter (is_completed_atbat pid) (default [] (ld_allPlays live)))
  = Some latest →
  GET_stats up pid = None →
  get_latest_atbat up pid g = Some (_format_atbat latest g zero_season_stats).
Proof.
  intros Hpk Hz Hf Hl Hlast Hstats. unfold get_latest_atbat.
  rewrite Hpk. simpl. apply Z.eqb_neq in Hz. rewrite Hz. simpl.
  rewrite Hf. simpl. unfold is_empty_feed. rewrite Hl. simpl.
  rewrite Hlast. unfold _get_player_season_stats. by rewrite Hstats.
Qed.

(** A tick never raises. *)
Lemma check_games_returns
    (ft : string -> option string) (cid : Z) (up : upstream)
    (och : option channel) (s : state) :
  fst (check_games ft cid up och s) = inr tt.
Proof.
  unfold check_games, load_json, gets, modify, print, modify, mbind, M_bind.
  simpl. destruct (players_json s) as [[|p rest]|]; try done.
  destruct och as [ch|]; [apply for_each_player_returns | done].
Qed.

(** C4, as stated: a failure while an entry is processed leaves zero
    notifications and no marker change for that entry.  Two failures do
    not: when the game-summary post raises, the exception reaches the
    [except] clause after the at-bat was delivered and the marker written;
    when the season-stats request fails, [_request] returns [{}] and the
    at-bat is posted with the fallback stats. *)
Lemma failure_after_notification :
  ¬ (∀ ft up ch player s,
       raises (check_player ft up ch player) s →
       notified (check_player ft up ch player) s = []
       ∧ last_atbats (exec (check_player ft up ch player) s) = last_atbats s)
  ∧ GET_stats (Scenario.upstream_of "In Progress" false) 660271 = None
  ∧ length (notified
              (check_player Scenario.no_time
                 (Scenario.upstream_of "In Progress" false)
                 Scenario.open_channel Scenario.ohtani)
              (Scenario.fresh [Scenario.ohtani])) = 1%nat.
Proof.
  split; [|by vm_compute].
  intros H.
  destruct (H Scenario.no_time (Scenario.upstream_of "Final" true)
              Scenario.no_summary_channel Scenario.ohtani
              (Scenario.fresh [Scenario.ohtani])) as [Hn _].
  - exists (HTTPException "403 Forbidden"). reflexivity.
  - vm_compute in Hn. discriminate Hn.
Qed.

(** C4, amended.  For the entry of [player] in a tick, reached in state
    [s]:
    - when its profile request, its schedule request or its game-feed
      request fails, the entry makes no call, changes no marker and writes
      no file;
    - when its at-bat post raises, the exception leaves the [try] block,
      nothing is delivered and its marker is unchanged in memory and in
      the file;
    - when its season-stats request fails, the at-bat of the last
      completed play is still handed to [channel.send], with the fallback
      stats, if its id differs from the marker;
    - when its game-summary post raises, the exception leaves the [try]
      block after the at-bat was delivered and the marker written in
      memory and in the file, and these stand;
    - whatever the entry does, its exception is caught: the [except]
      clause only prints, the iteration returns normally, the loop goes on
      with every subsequent entry, and neither the loop nor the tick
      raises. *)
Theorem entry_failure_is_contained
    (ft : string -> option string) (cid : Z) (up : upstream) (ch : channel)
    (player : player_info) (s : state) :
  let poll := check_player ft up ch player in
  let entry := try_except poll (on_error player) in
  let key := Py.str (id player) in
  (GET_person up (id player) = None → poll s = (inr tt, s))
  ∧ (∀ first others tid,
       people (_request (GET_person up (id player))) = Some (first :: others) →
       tr_id (default ∅ (p_currentTeam first)) = Some tid →
       GET_schedule up tid = None →
       poll s = (inr tt, s))
  ∧ (∀ g pk,
       get_player_game_today ft up (id player) = Some g →
       game_pk g = Some pk →
       GET_feed up pk = None →
       poll s = (inr tt, s))
  ∧ (∀ g ab x,
       get_player_game_today ft up (id player) = Some g →
       get_latest_atbat up (id player) g = Some ab →
       send_raises ch (atbat_embed player ab g) = Some x →
       (last_atbats s !! key ≠ Some (ab_id ab) → fst (poll s) = inl x)
       ∧ notified poll s = []
       ∧ last_atbats (exec poll s) = last_atbats s
       ∧ last_atbats_json (exec poll s) = last_atbats_json s)
  ∧ (∀ g pk feed live latest,
       get_player_game_today ft up (id player) = Some g →
       game_pk g = Some pk → pk ≠ 0 →
       GET_feed up pk = Some feed →
       liveData feed = Some live →
       last (List.filter (is_completed_atbat (id player))
               (default [] (ld_allPlays live))) = Some latest →
       GET_stats up (id player) = None →
       last_atbats s !! key ≠ Some (pl_atBatIndex latest) →
       let e := atbat_embed player (_format_atbat latest g zero_season_stats) g in
       head (new_calls poll s) = Some (e, send_raises ch e))
  ∧ (∀ g ab y,
       get_player_game_today ft up (id player) = Some g →
       get_latest_atbat up (id player) g = Some ab →
       last_atbats s !! key ≠ Some (ab_id ab) →
       send_raises ch (atbat_embed player ab g) = None →
       gameComplete g = true →
       send_raises ch (summary_embed player g) = Some y →
       fst (poll s) = inl y
       ∧ notified poll s = [atbat_embed player ab g]
       ∧ last_atbats (exec poll s) = <[key := ab_id ab]> (last_atbats s)
       ∧ last_atbats_json (exec poll s)
         = Some (<[key := ab_id ab]> (last_atbats s)))
  ∧ fst (entry s) = inr tt
  ∧ (new_calls entry s = new_calls poll s
     ∧ last_atbats (exec entry s) = last_atbats (exec poll s)
     ∧ last_atbats_json (exec entry s) = last_atbats_json (exec poll s))
  ∧ (∀ before rest s0,
       s = exec (for_each_player ft up ch before) s0 →
       for_each_player ft up ch (before ++ player :: rest) s0
       = for_each_player ft up ch rest (exec entry s))
  ∧ (∀ roster s0, fst (for_each_player ft up ch roster s0) = inr tt)
  ∧ (∀ och s0, fst (check_games ft cid up och s0) = inr tt).
Proof.
  intros poll entry key. subst poll entry key.
  split; [|split; [|split; [|split; [|split; [|split; [|split; [|split;
    [|split; [|split]]]]]]]]].
  - intros Hfail. apply check_player_no_game.
    by apply no_game_without_profile.
  - intros first others tid Hp Ht Hs. apply check_player_no_game.
    by apply (no_game_without_schedule ft up (id player) first others tid).
  - intros g pk Hg Hpk Hf. apply (check_player_no_atbat ft up ch player g s Hg).
    by apply (no_atbat_without_feed up (id player) g pk).
  - intros g ab x Hg Hab Hx.
    pose proof (check_player_markers ft up ch player g ab Hg Hab s) as Hm.
    pose proof (check_player_calls ft up ch player g ab Hg Hab s) as Hc.
    pose proof (check_player_found ft up ch player g ab s Hg Hab) as Hrun.
    simpl in Hm. unfold notified. rewrite Hc. rewrite Hx in *.
    case_bool_decide; simpl.
    + rewrite Hm. by repeat split.
    + split; [intros _; by rewrite Hrun|]. by destruct Hm as (-> & -> & _).
  - intros g pk feed live latest Hg Hpk Hz Hf Hl Hlast Hstats Hnew e.
    pose proof (latest_atbat_without_stats up (id player) g pk feed live latest
                  Hpk Hz Hf Hl Hlast Hstats) as Hab.
    rewrite (check_player_calls ft up ch player g _ Hg Hab s).
    rewrite bool_decide_eq_false_2 by exact Hnew.
    subst e. by destruct (send_raises ch _).
  - intros g ab y Hg Hab Hnew Hsend Hfin Hy.
    pose proof (check_player_markers ft up ch player g ab Hg Hab s) as Hm.
    pose proof (check_player_calls ft up ch player g ab Hg Hab s) as Hc.
    pose proof (check_player_found ft up ch player g ab s Hg Hab) as Hrun.
    simpl in Hm. unfold notified. rewrite Hc.
    rewrite bool_decide_eq_false_2 in Hm, Hrun |- * by exact Hnew.
    rewrite Hsend in Hm, Hrun |- *. rewrite Hfin in Hrun |- *.
    rewrite Hy. simpl. destruct Hm as (-> & -> & _).
    split; [|done]. rewrite Hrun. unfold send. by rewrite Hy.
  - apply entry_returns.
  - destruct (entry_state ft up ch player s) as (_ & Hfile & _ & Hdict & Hcalls).
    unfold new_calls. by rewrite Hcalls, Hfile, Hdict.
  - intros before rest s0 ->.
    rewrite for_each_player_app. apply for_each_player_cons.
  - intros roster s0. apply for_each_player_returns.
  - intros och s0. apply check_games_returns.
Qed.

(** A roster of two in a Final game.  With the profile, the schedule or
    the feed down, Ohtani's entry is silent; a closed channel leaves no
    marker; with the season stats down his at-bat still goes out; when the
    summary post raises, the at-bat and marker 12 stand, and the loop
    turns to the second entry. *)
Lemma entry_failure_is_contained_witness :
  let up := Scenario.upstream_of "Final" true in
  let down (person schedule feed : bool) :=
    {| GET_players := None;
       GET_person := if person then λ _, None else GET_person up;
       GET_schedule := if schedule then λ _, None else GET_schedule up;
       GET_feed := if feed then λ _, None else GET_feed up;
       GET_stats := GET_stats up |} in
  let s := Scenario.fresh [Scenario.ohtani; Scenario.judge] in
  let poll (u : upstream) (ch : channel) :=
    check_player Scenario.no_time u ch Scenario.ohtani in
  let entry := try_except (poll up Scenario.no_summary_channel)
                 (on_error Scenario.ohtani) in
  poll (down true false false) Scenario.open_channel s = (inr tt, s)
  ∧ poll (down false true false) Scenario.open_channel s = (inr tt, s)
  ∧ poll (down false false true) Scenario.open_channel s = (inr tt, s)
  ∧ (notified (poll up Scenario.closed_channel) s = []
     ∧ last_atbats_json (exec (poll up Scenario.closed_channel) s) = None)
  ∧ (ef_value <$> (fst <$> head (new_calls
                                   (poll (Scenario.upstream_of "Final" false)
                                      Scenario.open_channel) s))
                  ≫= (λ e, em_fields e !! 1%nat))
    = Some "..000 / ..000 / ..000"
  ∧ (raises (poll up Scenario.no_summary_channel) s
     ∧ map em_title (notified (poll up Scenario.no_summary_channel) s)
       = ["⚾ Shohei Ohtani - At Bat"]
     ∧ last_atbats_json (exec (poll up Scenario.no_summary_channel) s)
       = Some {[ "660271" := 12 ]})
  ∧ for_each_player Scenario.no_time up Scenario.no_summary_channel
      ([] ++ [Scenario.ohtani; Scenario.judge]) s
    = for_each_player Scenario.no_time up Scenario.no_summary_channel
        [Scenario.judge] (exec entry s)
  ∧ console (exec entry s) = ["Error checking Shohei Ohtani: 403 Forbidden"].
Proof.
  intros up down s poll entry.
  pose (g := _format_game_info Scenario.no_time (Scenario.game_777 "Final")).
  pose (ab := _format_atbat Scenario.home_run_12 g
                (_get_player_season_stats up 660271)).
  assert (Hg : ∀ stats_ok,
             get_player_game_today Scenario.no_time
               (Scenario.upstream_of "Final" stats_ok) (id Scenario.ohtani)
             = Some g) by (by intros [|]).
  assert (Hab : get_latest_atbat up (id Scenario.ohtani) g = Some ab)
    by reflexivity.
  split; [|split; [|split; [|split; [|split; [|split; [|split]]]]]].
  - apply (proj1 (entry_failure_is_contained Scenario.no_time 0
                    (down true false false) Scenario.open_channel
                    Scenario.ohtani s)).
    reflexivity.
  - apply (proj1 (proj2 (entry_failure_is_contained Scenario.no_time 0
                           (down false true false) Scenario.open_channel
                           Scenario.ohtani s))
             Scenario.ohtani_person [] 119); reflexivity.
  - apply (proj1 (proj2 (proj2 (entry_failure_is_contained Scenario.no_time 0
                                  (down false false true) Scenario.open_channel
                                  Scenario.ohtani s)))
             g 777); reflexivity.
  - destruct (proj1 (proj2 (proj2 (proj2
                (entry_failure_is_contained Scenario.no_time 0 up
                   Scenario.closed_channel Scenario.ohtani s))))
                g ab (HTTPException "403 Forbidden") (Hg true) Hab eq_refl)
      as (_ & Hnone & _ & Hfile).
    split; [exact Hnone | exact Hfile].
  - assert (Hz : (777 : Z) ≠ 0) by done.
    assert (Hnew : last_atbats s !! Py.str (id Scenario.ohtani) ≠ Some 12)
      by done.
    pose proof (proj1 (proj2 (proj2 (proj2 (proj2
                  (entry_failure_is_contained Scenario.no_time 0
                     (Scenario.upstream_of "Final" false)
                     Scenario.open_channel Scenario.ohtani s)))))
                  g 777 (Scenario.feed_777_of [Scenario.home_run_12])
                  {| ld_allPlays := Some [Scenario.home_run_12];
                     ld_away_players := Some [];
                     ld_home_players :=
                       Some [("ID660271", Scenario.box_line_2_for_4)] |}
                  Scenario.home_run_12 (Hg false) eq_refl Hz eq_refl eq_refl
                  eq_refl eq_refl Hnew) as Hposted.
    unfold poll. rewrite Hposted. reflexivity.
  - destruct (proj1 (proj2 (proj2 (proj2 (proj2 (proj2
                (entry_failure_is_contained Scenario.no_time 0 up
                   Scenario.no_summary_channel Scenario.ohtani s))))))
                g ab (HTTPException "403 Forbidden") (Hg true) Hab)
      as (Hraise & Hnote & _ & Hfile); try reflexivity; try done.
    split; [by exists (HTTPException "403 Forbidden")|].
    unfold poll. split; [by rewrite Hnote | by rewrite Hfile].
  - apply (proj1 (proj2 (proj2 (proj2 (proj2 (proj2 (proj2 (proj2 (proj2
             (entry_failure_is_contained Scenario.no_time 0 up
                Scenario.no_summary_channel Scenario.ohtani s)))))))))).
    reflexivity.
  - reflexivity.
Defined.

(** ** The hit flag *)

Lemma is_completed_atbat_spec (pid : Z) (p : play) :
  is_completed_atbat pid p = true
  ↔ pl_batter_id p = Some pid
    ∧ (∃ ev, pl_event p = Some ev ∧ ev ≠ "")
    ∧ (∃ d, pl_description p = Some d ∧ d ≠ "").
Proof.
  unfold is_completed_atbat. rewrite !andb_true_iff, bool_decide_eq_true.
  assert (Ht : ∀ o, Py.truthy_opt o = true ↔ ∃ t, o = Some t ∧ t ≠ "").
  { intros [[|c t]|]; simpl; split; try done.
    - by intros (t & [= <-] & ?).
    - intros _. by exists (String c t).
    - by intros (t & ? & _). }
  by rewrite !Ht.
Qed.

(** C8: the hit flag of a constructed at-bat is true exactly when the event
    type is one of Single, Double, Triple, Home Run, and false for every
    other event type.  Whether a play counts as a completed at-bat does not
    depend on the event type beyond its being recorded, and whether the
    at-bat is posted depends on its id and the marker alone: two at-bats
    with the same id are posted alike, whatever their hit flags. *)
Theorem hit_flag_iff_event_in_hit_set :
  (∀ p g st,
     was_hit (_format_atbat p g st) = true
     ↔ default "" (pl_event p) ∈ ["Single"; "Double"; "Triple"; "Home Run"])
  ∧ (∀ p g st,
       default "" (pl_event p) ∉ ["Single"; "Double"; "Triple"; "Home Run"] →
       was_hit (_format_atbat p g st) = false)
  ∧ (∀ pid p ev d,
       pl_batter_id p = Some pid →
       pl_event p = Some ev → ev ≠ "" →
       pl_description p = Some d → d ≠ "" →
       is_completed_atbat pid p = true)
  ∧ (∀ ft up up' ch player g g' ab ab' s,
       get_player_game_today ft up (id player) = Some g →
       get_latest_atbat up (id player) g = Some ab →
       get_player_game_today ft up' (id player) = Some g' →
       get_latest_atbat up' (id player) g' = Some ab' →
       ab_id ab = ab_id ab' →
       (atbat_embed player ab g ∈ posted (check_player ft up ch player) s
        ↔ atbat_embed player ab' g' ∈ posted (check_player ft up' ch player) s)).
Proof.
  split; [|split; [|split]].
  - apply was_hit_spec.
  - intros p g st Hnot. apply not_true_is_false.
    by rewrite was_hit_spec.
  - intros pid p ev d Hb Hev Hne Hd Hnd.
    apply is_completed_atbat_spec. eauto 10.
  - intros ft up up' ch player g g' ab ab' s Hg Hab Hg' Hab' Hid.
    assert (Hposted : ∀ u h a,
      get_player_game_today ft u (id player) = Some h →
      get_latest_atbat u (id player) h = Some a →
      atbat_embed player a h ∈ posted (check_player ft u ch player) s
      ↔ last_atbats s !! Py.str (id player) ≠ Some (ab_id a)).
    { intros u h a Hh Ha. poll_cases ft u ch player h a s Hh Ha.
      - rewrite elem_of_nil. tauto.
      - rewrite elem_of_cons. tauto.
      - rewrite elem_of_cons. tauto.
      - rewrite elem_of_cons. tauto. }
    rewrite (Hposted up g ab Hg Hab), (Hposted up' g' ab' Hg' Hab').
    by rewrite Hid.
Qed.

(** A home run and a strikeout with the same play id: the first is a hit,
    the second is not, and each is posted on a first poll. *)
Lemma hit_flag_iff_event_in_hit_set_witness :
  let up := Scenario.upstream_with "In Progress" true [Scenario.home_run_12] in
  let up' := Scenario.upstream_with "In Progress" true [Scenario.strikeout_12] in
  let g := _format_game_info Scenario.no_time (Scenario.game_777 "In Progress") in
  let st := _get_player_season_stats up 660271 in
  let ab := _format_atbat Scenario.home_run_12 g st in
  let ab' := _format_atbat Scenario.strikeout_12 g st in
  let s := Scenario.fresh [Scenario.ohtani] in
  was_hit ab = true
  ∧ was_hit ab' = false
  ∧ is_completed_atbat 660271 Scenario.strikeout_12 = true
  ∧ (atbat_embed Scenario.ohtani ab g
       ∈ posted (check_player Scenario.no_time up Scenario.open_channel
                   Scenario.ohtani) s
     ↔ atbat_embed Scenario.ohtani ab' g
       ∈ posted (check_player Scenario.no_time up' Scenario.open_channel
                   Scenario.ohtani) s).
Proof.
  intros up up' g st ab ab' s.
  destruct hit_flag_iff_event_in_hit_set as (Hhit & Hout & Hdone & Hsame).
  split; [|split; [|split]].
  - apply Hhit. simpl. rewrite !elem_of_cons. auto.
  - apply Hout. simpl. rewrite !elem_of_cons, elem_of_nil.
    intros [H|[H|[H|[H|[]]]]]; discriminate H.
  - apply (Hdone 660271 Scenario.strikeout_12 "Strikeout"
             "Shohei Ohtani strikes out swinging."); done.
  - apply (Hsame Scenario.no_time up up' Scenario.open_channel
             Scenario.ohtani g g ab ab' s); reflexivity.
Defined.

(** ** [remove_player] *)

Lemma filter_length_le {A : Type} (f : A -> bool) (l : list A) :
  (length (List.filter f l) ≤ length l)%nat.
Proof.
  induction l as [|x l IH]; simpl; [lia|]. destruct (f x); simpl; lia.
Qed.

(** The filter keeps the length exactly when it keeps every element. *)
Lemma filter_length_eq {A : Type} (f : A -> bool) (l : list A) :
  length (List.filter f l) = length l ↔ ∀ x, x ∈ l → f x = true.
Proof.
  induction l as [|x l IH]; simpl.
  - split; [|done]. intros _ x Hx. by apply elem_of_nil in Hx.
  - pose proof (filter_length_le f l) as Hle.
    destruct (f x) eqn:Hfx; simpl.
    + split.
      * intros Hlen y Hy. apply elem_of_cons in Hy as [->|Hy]; [done|].
        apply IH; [lia | done].
      * intros Hall. f_equal. apply IH. intros y Hy. apply Hall.
        apply elem_of_cons. by right.
    + split; [lia|]. intros Hall.
      rewrite Hall in Hfx; [done | apply list_elem_of_here].
Qed.

Lemma keeps_spec (ul : string -> string) (player_name : string)
    (p : player_info) :
  keeps ul player_name p = false
  ↔ ∃ pre post,
      Py.lower ul (name p) = pre +:+ Py.lower ul player_name +:+ post.
Proof.
  unfold keeps. rewrite negb_false_iff. apply contains_spec.
Qed.

(** C10: run by a user who holds the admin role, the command removes every
    roster entry whose lower-cased name contains the lower-cased query, all
    of them in one invocation, and saves the rest in their order; when no
    entry matches it answers not-found, writes nothing and leaves the state
    as it was.  Lower-casing is [str.lower]: [ul] is what it does to the
    strings that are not ASCII, and the statement holds whatever that is. *)
Theorem remove_player_removes_every_match
    (ul : string -> string) (player_name : string) (s : state) :
  let roster := default [] (players_json s) in
  let matches (p : player_info) :=
    ∃ pre post, Py.lower ul (name p) = pre +:+ Py.lower ul player_name +:+ post in
  let run := remove_player ul true player_name in
  ((∃ p, p ∈ roster ∧ matches p) →
     players_json (exec run s) = Some (List.filter (keeps ul player_name) roster)
     ∧ (∀ p, p ∈ default [] (players_json (exec run s))
             ↔ p ∈ roster ∧ ¬ matches p)
     ∧ writes (exec run s) = (writes s ++ ["players.json"])%list
     ∧ fst (run s)
       = inr ("✅ Removed player matching '" +:+ player_name
                +:+ "' from tracking."))
  ∧ (¬ (∃ p, p ∈ roster ∧ matches p) →
     run s = (inr ("Player '" +:+ player_name +:+ "' not found in roster."), s)).
Proof.
  intros roster matches run. subst run.
  assert (Hrun : remove_player ul true player_name s =
    if Nat.eqb (length (List.filter (keeps ul player_name) roster)) (length roster)
    then (inr ("Player '" +:+ player_name +:+ "' not found in roster."), s)
    else (inr ("✅ Removed player matching '" +:+ player_name
                 +:+ "' from tracking."),
          write_file PLAYER_ROSTER_FILE
            (List.filter (keeps ul player_name) roster) s)).
  { unfold remove_player, load_json, gets, mbind, M_bind. simpl.
    fold roster.
    replace (match players_json s with Some data => data | None => [] end)
      with roster by (unfold roster; by destruct (players_json s)).
    by destruct (Nat.eqb _ _). }
  assert (Hnone : length (List.filter (keeps ul player_name) roster) = length roster
                  ↔ ¬ (∃ p, p ∈ roster ∧ matches p)).
  { rewrite filter_length_eq. split.
    - intros Hall (p & Hin & Hm). apply keeps_spec in Hm.
      rewrite (Hall p Hin) in Hm. done.
    - intros Hno p Hin. apply not_false_is_true. intros Hk.
      apply Hno. exists p. split; [done|]. by apply keeps_spec. }
  split.
  - intros Hsome. unfold exec. rewrite Hrun.
    destruct (Nat.eqb _ _) eqn:Hlen.
    + apply Nat.eqb_eq, Hnone in Hlen. done.
    + simpl. split; [done|]. split; [|done].
      intros p. rewrite !list_elem_of_In, filter_In, <- !list_elem_of_In.
      split; intros [Hin Hk]; (split; [done|]).
      * intros Hm. apply keeps_spec in Hm. congruence.
      * apply not_false_is_true. intros Hf. by apply Hk, keeps_spec.
  - intros Hno. rewrite Hrun.
    apply Hnone, Nat.eqb_eq in Hno. by rewrite Hno.
Qed.

(** The query "SMITH" removes both players named Will Smith at once; the
    query "trout" removes nobody and writes nothing. *)
Lemma remove_player_removes_every_match_witness :
  let smith1 := _format_player_info Scenario.smith_catcher in
  let smith2 := _format_player_info Scenario.smith_pitcher in
  let s := Scenario.fresh [smith1; Scenario.ohtani; smith2] in
  players_json (exec (remove_player Scenario.no_unicode true "SMITH") s)
  = Some [Scenario.ohtani]
  ∧ remove_player Scenario.no_unicode true "trout" s
    = (inr "Player 'trout' not found in roster.", s).
Proof.
  intros smith1 smith2 s. split.
  - apply (proj1 (remove_player_removes_every_match Scenario.no_unicode
                    "SMITH" s)).
    exists smith1. split; [apply list_elem_of_here|].
    exists "will ", "". reflexivity.
  - apply (proj2 (remove_player_removes_every_match Scenario.no_unicode
                    "trout" s)).
    intros (p & Hin & Hm).
    assert (Hk : keeps Scenario.no_unicode "trout" p = false)
      by (by apply keeps_spec).
    simpl in Hin. rewrite !elem_of_cons, elem_of_nil in Hin.
    destruct Hin as [->|[->|[->|[]]]]; vm_compute in Hk; discriminate Hk.
Defined.

(** A name with accented letters: the query "RAMÍREZ" and the name
    "José Ramírez" are lower-cased by the Unicode tables, and the entry is
    removed. *)
Example remove_player_accented_name (ul : string -> string) :
  ul "RAMÍREZ" = "ramírez" →
  ul "José Ramírez" = "josé ramírez" →
  let ramirez :=
    {| id := 608070; name := "José Ramírez"; primaryNumber := Some "11";
       team := "Cleveland Guardians"; team_id := Some 114; position := "3B" |} in
  players_json (exec (remove_player ul true "RAMÍREZ")
                  (Scenario.fresh [ramirez; Scenario.ohtani]))
  = Some [Scenario.ohtani].
Proof.
  intros Hq Hn ramirez.
  assert (Hgone : keeps ul "RAMÍREZ" ramirez = false).
  { unfold keeps.
    change (Py.lower ul "RAMÍREZ") with (ul "RAMÍREZ").
    change (Py.lower ul (name ramirez)) with (ul "José Ramírez").
    by rewrite Hq, Hn. }
  assert (Hkept : keeps ul "RAMÍREZ" Scenario.ohtani = true).
  { unfold keeps.
    change (Py.lower ul "RAMÍREZ") with (ul "RAMÍREZ").
    by rewrite Hq. }
  unfold exec, remove_player, load_json, gets, mbind, M_bind. simpl.
  by rewrite Hgone, Hkept.
Qed.

(** A user without the role changes nothing. *)
Lemma remove_player_needs_role (ul : string -> string)
    (player_name : string) (s : state) :
  remove_player ul false player_name s
  = (inr "You need the 'MLB Bot Admin' role to use this command.", s).
Proof. reflexivity. Qed.

(** ** A repeated cycle *)

Section Cycle.

Variable ft : string -> option string.
Variable CHANNEL_ID : Z.
Variables (up : upstream) (ch : channel).

Local Abbreviation settled := (Bot.settled ft up).

Lemma check_player_settled (player : player_info) (s : state) :
  settled (last_atbats s) player →
  check_player ft up ch player s = (inr tt, s).
Proof.
  intros Hs.
  destruct (get_player_game_today ft up (id player)) as [g|] eqn:Hg;
    [|by apply check_player_no_game].
  destruct (get_latest_atbat up (id player) g) as [ab|] eqn:Hab;
    [|by apply (check_player_no_atbat ft up ch player g)].
  rewrite (check_player_found ft up ch player g ab s Hg Hab).
  by rewrite (bool_decide_eq_true_2 _ (Hs g ab Hg Hab)).
Qed.

Lemma for_each_player_settled (roster : list player_info) (s : state) :
  Forall (settled (last_atbats s)) roster →
  for_each_player ft up ch roster s = (inr tt, s).
Proof.
  induction 1 as [|p rest Hp Hrest IH]; [done|].
  rewrite for_each_player_cons. unfold exec, try_except.
  by rewrite (check_player_settled p s Hp).
Qed.

(** An entry touches the marker of its own key only, and sets it to the id
    the upstream reports. *)
Lemma check_player_last_atbats (player : player_info) (s : state) :
  last_atbats (exec (check_player ft up ch player) s) = last_atbats s
  ∨ ∃ g ab,
      get_player_game_today ft up (id player) = Some g
      ∧ get_latest_atbat up (id player) g = Some ab
      ∧ last_atbats (exec (check_player ft up ch player) s)
        = <[Py.str (id player) := ab_id ab]> (last_atbats s).
Proof.
  destruct (get_player_game_today ft up (id player)) as [g|] eqn:Hg;
    [|left; unfold exec; by rewrite check_player_no_game].
  destruct (get_latest_atbat up (id player) g) as [ab|] eqn:Hab;
    [|left; unfold exec; by rewrite (check_player_no_atbat ft up ch player g)].
  pose proof (check_player_markers ft up ch player g ab Hg Hab s) as Hm.
  simpl in Hm. case_bool_decide.
  - left. by rewrite Hm.
  - destruct (send_raises ch (atbat_embed player ab g)).
    + left. by destruct Hm.
    + right. exists g, ab. by destruct Hm.
Qed.

Lemma check_player_keeps_settled (player q : player_info) (s : state) :
  settled (last_atbats s) q →
  settled (last_atbats (exec (check_player ft up ch player) s)) q.
Proof.
  intros Hq.
  destruct (check_player_last_atbats player s) as [->|(g & ab & Hg & Hab & ->)];
    [done|].
  intros g' ab' Hg' Hab'.
  destruct (decide (Py.str (id player) = Py.str (id q))) as [Heq|Hne].
  - assert (Hid : id player = id q) by (by apply (inj pretty)).
    rewrite Hid in *. rewrite Hg in Hg'. injection Hg' as <-.
    rewrite Hab in Hab'. injection Hab' as <-.
    apply lookup_insert_eq.
  - rewrite lookup_insert_ne by done. by apply (Hq g' ab').
Qed.

Lemma entry_last_atbats (player : player_info) (s : state) :
  last_atbats (exec (try_except (check_player ft up ch player)
                       (on_error player)) s)
  = last_atbats (exec (check_player ft up ch player) s).
Proof. by destruct (entry_state ft up ch player s) as (_ & _ & _ & -> & _). Qed.

Lemma for_each_player_keeps_settled (roster : list player_info)
    (q : player_info) (s : state) :
  settled (last_atbats s) q →
  settled (last_atbats (exec (for_each_player ft up ch roster) s)) q.
Proof.
  revert s. induction roster as [|p rest IH]; intros s Hq; [done|].
  unfold exec. rewrite for_each_player_cons. apply IH.
  rewrite entry_last_atbats. by apply check_player_keeps_settled.
Qed.

Hypothesis at_bats_delivered :
  ∀ player ab g, send_raises ch (atbat_embed player ab g) = None.

Lemma check_player_settles (player : player_info) (s : state) :
  settled (last_atbats (exec (check_player ft up ch player) s)) player.
Proof.
  intros g ab Hg Hab.
  apply (marker_after_poll ft up ch player g ab s Hg Hab).
  destruct (decide (last_atbats s !! Py.str (id player) = Some (ab_id ab)))
    as [?|Hne]; [by right|left].
  unfold notified.
  rewrite (check_player_calls ft up ch player g ab Hg Hab).
  rewrite bool_decide_eq_false_2 by done.
  rewrite at_bats_delivered. simpl. apply list_elem_of_here.
Qed.

Lemma for_each_player_settles (roster : list player_info) (s : state) :
  Forall (settled (last_atbats (exec (for_each_player ft up ch roster) s)))
    roster.
Proof.
  revert s. induction roster as [|p rest IH]; intros s; [constructor|].
  unfold exec. rewrite for_each_player_cons. constructor; [|apply IH].
  apply for_each_player_keeps_settled. rewrite entry_last_atbats.
  apply check_player_settles.
Qed.

(** The roster file is not written by the loop, and the marker file stays
    in step with the dict. *)
Lemma check_player_frame (player : player_info) (s : state) :
  let s' := exec (check_player ft up ch player) s in
  players_json s' = players_json s ∧ (in_sync s → in_sync s').
Proof.
  destruct (get_player_game_today ft up (id player)) as [g|] eqn:Hg;
    [|unfold exec; by rewrite check_player_no_game].
  destruct (get_latest_atbat up (id player) g) as [ab|] eqn:Hab;
    [|unfold exec; by rewrite (check_player_no_atbat ft up ch player g)].
  unfold exec, in_sync.
  rewrite (check_player_found ft up ch player g ab s Hg Hab).
  case_bool_decide; [done|].
  destruct (send_raises ch (atbat_embed player ab g)); [done|].
  destruct (gameComplete g); [|done].
  unfold send. by destruct (send_raises ch (summary_embed player g)).
Qed.

Lemma exec_for_each_player_cons (p : player_info) (rest : list player_info)
    (s : state) :
  exec (for_each_player ft up ch (p :: rest)) s
  = exec (for_each_player ft up ch rest)
      (exec (try_except (check_player ft up ch p) (on_error p)) s).
Proof. unfold exec at 1. by rewrite for_each_player_cons. Qed.

Lemma for_each_player_frame (roster : list player_info) (s : state) :
  let s' := exec (for_each_player ft up ch roster) s in
  players_json s' = players_json s ∧ (in_sync s → in_sync s').
Proof.
  revert s. induction roster as [|p rest IH]; intros s; [done|].
  cbv zeta. rewrite exec_for_each_player_cons.
  destruct (IH (exec (try_except (check_player ft up ch p) (on_error p)) s))
    as [Hroster Hsync].
  destruct (entry_state ft up ch p s) as (Hp & Hfile & _ & Hdict & _).
  destruct (check_player_frame p s) as [Hp' Hsync'].
  split.
  - rewrite Hroster. congruence.
  - intros Hs. apply Hsync. unfold in_sync. rewrite Hfile, Hdict.
    by apply Hsync'.
Qed.

Lemma set_last_atbats_in_sync (s : state) :
  in_sync s →
  set_last_atbats
    (match last_atbats_json s with Some m => m | None => ∅ end) s = s.
Proof.
  destruct s as [r f w m c o]. unfold in_sync, set_last_atbats. simpl.
  destruct f; by intros ->.
Qed.

(** What one tick does when the channel is found. *)
Lemma check_games_run (s : state) :
  check_games ft CHANNEL_ID up (Some ch) s =
    match players_json s with
    | None | Some [] => (inr tt, s)
    | Some roster =>
        for_each_player ft up ch roster
          (set_last_atbats
             (match last_atbats_json s with Some m => m | None => ∅ end) s)
    end.
Proof.
  unfold check_games, load_json, gets, modify, mbind, M_bind. simpl.
  by destruct (players_json s) as [[|p rest]|].
Qed.

(** X10: when the channel delivers every at-bat embed, a second tick
    against the same upstream makes no call at all and leaves the state as
    the first tick left it. *)
Lemma repeated_cycle_is_silent (s : state) :
  let cycle := check_games ft CHANNEL_ID up (Some ch) in
  exec cycle (exec cycle s) = exec cycle s
  ∧ posted cycle (exec cycle s) = [].
Proof.
  intros cycle.
  assert (Hfix : exec cycle (exec cycle s) = exec cycle s).
  { subst cycle. unfold exec. rewrite (check_games_run s).
    destruct (players_json s) as [[|p rest]|] eqn:Hroster.
    - simpl. by rewrite check_games_run, Hroster.
    - set (s0 := set_last_atbats _ s).
      destruct (for_each_player_frame (p :: rest) s0) as [Hr Hsync].
      pose proof (for_each_player_settles (p :: rest) s0) as Hall.
      unfold exec in Hr, Hsync, Hall.
      set (s1 := snd (for_each_player ft up ch (p :: rest) s0)) in *.
      assert (Hs1 : in_sync s1).
      { apply Hsync. subst s0. unfold in_sync. simpl.
        by destruct (last_atbats_json s). }
      rewrite check_games_run, Hr. subst s0. simpl players_json.
      rewrite Hroster, (set_last_atbats_in_sync s1 Hs1).
      by rewrite (for_each_player_settled (p :: rest) s1 Hall).
    - simpl. by rewrite check_games_run, Hroster. }
  split; [exact Hfix|].
  unfold posted, new_calls. rewrite Hfix. by rewrite drop_all.
Qed.

End Cycle.

(** ** Isolation between roster entries *)

(** Distinct ids have distinct keys. *)
Lemma player_key_inj (a b : Z) : Py.str a = Py.str b → a = b.
Proof. apply (inj pretty). Qed.

(** An entry never changes the marker of another entity. *)
Lemma check_player_other_marker
    (ft : string -> option string) (up : upstream) (ch : channel)
    (player q : player_info) (s : state) :
  id q ≠ id player →
  last_atbats (exec (check_player ft up ch player) s) !! Py.str (id q)
  = last_atbats s !! Py.str (id q).
Proof.
  intros Hne.
  destruct (check_player_last_atbats ft up ch player s)
    as [->|(g & ab & _ & _ & ->)]; [done|].
  apply lookup_insert_ne. intros Heq. apply Hne. symmetry.
  by apply player_key_inj.
Qed.

(** Two entries of one cycle, game Final.  With a channel that rejects the
    summary, each entry raises after its at-bat was delivered and the loop
    still reaches the second entry; with a channel that rejects everything,
    both posts are attempted, nothing is delivered and no marker is
    written. *)
Example cycle_continues_after_failures :
  let up := Scenario.upstream_with "Final" true
              [Scenario.home_run_12; Scenario.single_13] in
  let smith := _format_player_info Scenario.smith_catcher in
  let s := Scenario.fresh [Scenario.ohtani; smith] in
  let run (ch : channel) := exec (check_games Scenario.no_time 0 up (Some ch)) s in
  map em_title (delivered (run Scenario.no_summary_channel))
  = ["⚾ Shohei Ohtani - At Bat"; "⚾ Will Smith - At Bat"]
  ∧ console (run Scenario.no_summary_channel)
    = ["Error checking Shohei Ohtani: 403 Forbidden";
       "Error checking Will Smith: 403 Forbidden"]
  ∧ map_to_list (last_atbats (run Scenario.no_summary_channel))
    ≡ₚ [("660271", 12); ("669257", 13)]
  ∧ delivered (run Scenario.closed_channel) = []
  ∧ length (send_calls (run Scenario.closed_channel)) = 2%nat
  ∧ last_atbats_json (run Scenario.closed_channel) = None.
Proof.
  vm_compute. repeat split; try done. apply perm_swap || reflexivity.
Qed.

(** * Further properties of the gateway *)

(** ** [search_player] *)

Lemma search_loop_none (ul : string -> string) (q : string)
    (players : list person) :
  search_loop ul q players = None
  ↔ ∀ p, p ∈ players → Py.contains q (Py.lower ul (p_fullName p)) = false.
Proof.
  induction players as [|p players IH]; simpl.
  - split; [|done]. intros _ p Hp. by apply elem_of_nil in Hp.
  - destruct (Py.contains q (Py.lower ul (p_fullName p))) eqn:Hc.
    + split; [done|]. intros Hall.
      rewrite Hall in Hc; [done | apply list_elem_of_here].
    + rewrite IH. split.
      * intros Hall x Hx. apply elem_of_cons in Hx as [->|Hx]; auto.
      * intros Hall x Hx. apply Hall, elem_of_cons. by right.
Qed.

Lemma search_loop_some (ul : string -> string) (q : string)
    (players : list person) (r : player_info) :
  search_loop ul q players = Some r →
  ∃ before p after,
    players = (before ++ p :: after)%list
    ∧ Py.contains q (Py.lower ul (p_fullName p)) = true
    ∧ (∀ b, b ∈ before → Py.contains q (Py.lower ul (p_fullName b)) = false)
    ∧ r = _format_player_info p.
Proof.
  induction players as [|p players IH]; simpl; [done|].
  destruct (Py.contains q (Py.lower ul (p_fullName p))) eqn:Hc.
  - intros [= <-]. exists [], p, players. repeat split; try done.
    intros b Hb. by apply elem_of_nil in Hb.
  - intros Hr. destruct (IH Hr) as (before & x & after & -> & Hx & Hb & ->).
    exists (p :: before), x, after. repeat split; try done.
    intros b Hin. apply elem_of_cons in Hin as [->|Hin]; auto.
Qed.

(** X1: [search_player] answers with the first player, in the order of the
    upstream list, whose lower-cased full name contains the lower-cased
    query, and with [None] exactly when no player of the list does; a failed
    request is an empty list.  Lower-casing is [str.lower], with [ul] for
    the strings that are not ASCII. *)
Theorem search_player_finds_first_match
    (ul : string -> string) (up : upstream) (q : string) :
  let players := default [] (people (_request (GET_players up))) in
  let matches (p : person) :=
    ∃ pre post, Py.lower ul (p_fullName p) = pre +:+ Py.lower ul q +:+ post in
  (search_player ul up q = None ↔ ∀ p, p ∈ players → ¬ matches p)
  ∧ (∀ r, search_player ul up q = Some r →
       ∃ before p after,
         players = (before ++ p :: after)%list
         ∧ matches p
         ∧ (∀ b, b ∈ before → ¬ matches b)
         ∧ r = _format_player_info p)
  ∧ (GET_players up = None → search_player ul up q = None).
Proof.
  intros players matches.
  assert (Hm : ∀ p, Py.contains (Py.lower ul q) (Py.lower ul (p_fullName p)) = false
                    ↔ ¬ matches p).
  { intros p. unfold matches. rewrite <- contains_spec.
    by destruct (Py.contains _ _). }
  split; [|split].
  - unfold search_player. fold players. rewrite search_loop_none.
    by setoid_rewrite Hm.
  - intros r Hr. unfold search_player in Hr. fold players in Hr.
    destruct (search_loop_some _ _ _ _ Hr)
      as (before & p & after & Hp & Hc & Hb & ->).
    exists before, p, after. repeat split; try done.
    + by apply contains_spec.
    + intros b Hin. by apply Hm, Hb.
  - intros Hfail. unfold search_player. by rewrite Hfail.
Qed.

(** The query "SMITH" finds the catcher, who comes first in the list; with
    the request failing nothing is found. *)
Lemma search_player_finds_first_match_witness :
  let up := Scenario.upstream_of "In Progress" true in
  (∃ before after,
     default [] (people (_request (GET_players up)))
     = (before ++ Scenario.smith_catcher :: after)%list
     ∧ search_player Scenario.no_unicode up "SMITH"
       = Some (_format_player_info Scenario.smith_catcher))
  ∧ search_player Scenario.no_unicode
      {| GET_players := None; GET_person := GET_person up;
         GET_schedule := GET_schedule up; GET_feed := GET_feed up;
         GET_stats := GET_stats up |} "SMITH" = None.
Proof.
  intros up. split.
  - destruct (proj1 (proj2 (search_player_finds_first_match
                              Scenario.no_unicode up "SMITH"))
                (_format_player_info Scenario.smith_catcher) eq_refl)
      as (before & p & after & Hsplit & _ & _ & Hr).
    exists [], [Scenario.ohtani_person; Scenario.smith_pitcher].
    split; reflexivity.
  - apply (proj2 (proj2 (search_player_finds_first_match
                           Scenario.no_unicode _ "SMITH"))).
    reflexivity.
Defined.

(** ** [get_player_game_today] *)

(** X2: [get_player_game_today] answers with a game exactly when the first
    person of the profile has a team id other than 0 and the first date of
    that team's schedule has a game; the answer is the first game of that
    date, whatever follows it (a second game of a doubleheader, later
    dates, further people). *)
Theorem game_today_is_first_game_of_first_date
    (ft : string -> option string) (up : upstream) (pid : Z) (g : game_info) :
  get_player_game_today ft up pid = Some g
  ↔ ∃ first others tid date0 later game more,
      people (_request (GET_person up pid)) = Some (first :: others)
      ∧ tr_id (default ∅ (p_currentTeam first)) = Some tid
      ∧ tid ≠ 0
      ∧ dates (_request (GET_schedule up tid)) = Some (date0 :: later)
      ∧ sd_games date0 = Some (game :: more)
      ∧ g = _format_game_info ft game.
Proof.
  unfold get_player_game_today. split.
  - destruct (people _) as [[|first others]|] eqn:Hp; try done.
    destruct (tr_id _) as [tid|] eqn:Ht; try done.
    destruct (Z.eqb tid 0) eqn:Hz; try done.
    destruct (dates _) as [[|date0 later]|] eqn:Hd; simpl; try done.
    destruct (sd_games date0) as [[|game more]|] eqn:Hg; try done.
    intros [= <-]. exists first, others, tid, date0, later, game, more.
    repeat split; try done. by apply Z.eqb_neq.
  - intros (first & others & tid & date0 & later & game & more
            & -> & -> & Hz & -> & Hg & ->).
    apply Z.eqb_neq in Hz. rewrite Hz. simpl. by rewrite Hg.
Qed.

(** ** [get_latest_atbat] *)

Lemma filter_nil_iff {A : Type} (f : A -> bool) (l : list A) :
  List.filter f l = [] ↔ ∀ x, x ∈ l → f x = false.
Proof.
  induction l as [|y l IH]; simpl.
  - split; [|done]. intros _ x Hx. by apply elem_of_nil in Hx.
  - destruct (f y) eqn:Hy.
    + split; [done|]. intros Hall.
      rewrite Hall in Hy; [done | apply list_elem_of_here].
    + rewrite IH. split.
      * intros Hall x Hx. apply elem_of_cons in Hx as [->|Hx]; auto.
      * intros Hall x Hx. apply Hall, elem_of_cons. by right.
Qed.

(** The last element that passes a filter splits the list: it passes, and
    nothing after it does. *)
Lemma last_filter_spec {A : Type} (f : A -> bool) (l : list A) (x : A) :
  last (List.filter f l) = Some x
  ↔ ∃ before after,
      l = (before ++ x :: after)%list
      ∧ f x = true
      ∧ ∀ y, y ∈ after → f y = false.
Proof.
  split.
  - induction l as [|y l IH]; simpl; [done|].
    destruct (f y) eqn:Hy.
    + rewrite last_cons.
      destruct (last (List.filter f l)) as [z|] eqn:Hl.
      * intros [= ->]. destruct (IH eq_refl) as (before & after & -> & Hx & Ha).
        by exists (y :: before), after.
      * intros [= <-]. apply last_None in Hl.
        pose proof (proj1 (filter_nil_iff f l) Hl) as Ha.
        by exists [], l.
    + intros Hl. destruct (IH Hl) as (before & after & -> & Hx & Ha).
      by exists (y :: before), after.
  - intros (before & after & -> & Hx & Ha).
    rewrite List.filter_app. simpl. rewrite Hx.
    rewrite (proj2 (filter_nil_iff f after) Ha). apply last_snoc.
Qed.

(** X3: [get_latest_atbat] answers with an at-bat exactly when the game has
    a non-zero [game_pk], the feed request succeeds with live data, and
    some play of the feed is a completed at-bat of the player.  The answer
    is built from the last such play in feed order: plays after it that are
    not completed, or not the player's, do not count. *)
Theorem latest_atbat_is_last_completed_play
    (up : upstream) (pid : Z) (g : game_info) (ab : atbat) :
  get_latest_atbat up pid g = Some ab
  ↔ ∃ pk feed live before latest after,
      game_pk g = Some pk
      ∧ pk ≠ 0
      ∧ GET_feed up pk = Some feed
      ∧ liveData feed = Some live
      ∧ default [] (ld_allPlays live) = (before ++ latest :: after)%list
      ∧ is_completed_atbat pid latest = true
      ∧ (∀ p, p ∈ after → is_completed_atbat pid p = false)
      ∧ ab = _format_atbat latest g (_get_player_season_stats up pid).
Proof.
  unfold get_latest_atbat. split.
  - destruct (game_pk g) as [pk|] eqn:Hpk; simpl; [|done].
    destruct (Z.eqb pk 0) eqn:Hz; simpl; [done|].
    destruct (GET_feed up pk) as [feed|] eqn:Hf; simpl; [|done].
    unfold is_empty_feed.
    destruct (liveData feed) as [live|] eqn:Hl; simpl; [|done].
    destruct (last _) as [latest|] eqn:Hlast; [|done].
    intros [= <-].
    apply last_filter_spec in Hlast as (before & after & Hsplit & Hc & Ha).
    exists pk, feed, live, before, latest, after.
    repeat split; try done. by apply Z.eqb_neq.
  - intros (pk & feed & live & before & latest & after
            & -> & Hz & Hf & Hl & Hsplit & Hc & Ha & ->).
    apply Z.eqb_neq in Hz. simpl. rewrite Hz. simpl. rewrite Hf. simpl.
    unfold is_empty_feed. rewrite Hl. simpl.
    assert (Hlast : last (List.filter (is_completed_atbat pid)
                            (default [] (ld_allPlays live))) = Some latest).
    { apply last_filter_spec. by exists before, after. }
    by rewrite Hlast.
Qed.

(** Where a returned at-bat comes from. *)
Lemma latest_atbat_source (up : upstream) (pid : Z) (g : game_info) (ab : atbat) :
  get_latest_atbat up pid g = Some ab →
  ∃ latest,
    is_completed_atbat pid latest = true
    ∧ ab = _format_atbat latest g (_get_player_season_stats up pid).
Proof.
  unfold get_latest_atbat.
  destruct (negb _); [done|].
  destruct (is_empty_feed _); [done|].
  destruct (last _) as [latest|] eqn:Hlast; [|done].
  intros [= <-]. exists latest. split; [|done].
  apply last_filter_spec in Hlast as (_ & _ & _ & Hc & _). exact Hc.
Qed.

(** X4: every at-bat that [get_latest_atbat] returns has a non-empty
    result and a non-empty description, its hit flag agrees with its
    result, it carries the season stats of the player, and the embed built
    from it is green exactly when the result is one of the four hits. *)
Theorem latest_atbat_is_well_formed
    (up : upstream) (pid : Z) (g : game_info) (ab : atbat) :
  get_latest_atbat up pid g = Some ab →
  ab_result ab ≠ ""
  ∧ ab_description ab ≠ ""
  ∧ (was_hit ab = true
     ↔ ab_result ab ∈ ["Single"; "Double"; "Triple"; "Home Run"])
  ∧ ab_stats ab = _get_player_season_stats up pid
  ∧ (∀ player g',
       em_color (atbat_embed player ab g') = green
       ↔ ab_result ab ∈ ["Single"; "Double"; "Triple"; "Home Run"]).
Proof.
  intros Hab.
  destruct (latest_atbat_source up pid g ab Hab) as (latest & Hc & ->).
  apply is_completed_atbat_spec in Hc
    as (_ & (ev & Hev & Hne) & (d & Hd & Hnd)).
  assert (Hhit : was_hit (_format_atbat latest g (_get_player_season_stats up pid))
                 = true
                 ↔ default "" (pl_event latest)
                   ∈ ["Single"; "Double"; "Triple"; "Home Run"])
    by apply was_hit_spec.
  change (ab_result (_format_atbat latest g (_get_player_season_stats up pid)))
    with (default "" (pl_event latest)).
  change (ab_description (_format_atbat latest g (_get_player_season_stats up pid)))
    with (default "" (pl_description latest)).
  rewrite Hev, Hd in *. simpl default in *.
  split; [done|]. split; [done|]. split; [exact Hhit|]. split; [done|].
  intros player g'. rewrite <- Hhit.
  change (em_color (atbat_embed player
            (_format_atbat latest g (_get_player_season_stats up pid)) g'))
    with (if was_hit (_format_atbat latest g (_get_player_season_stats up pid))
          then green else red).
  by destruct (was_hit _).
Qed.

(** Ohtani's home run 12. *)
Lemma latest_atbat_is_well_formed_witness :
  let up := Scenario.upstream_of "In Progress" true in
  let g := _format_game_info Scenario.no_time (Scenario.game_777 "In Progress") in
  ∃ ab, get_latest_atbat up 660271 g = Some ab
        ∧ ab_result ab ≠ ""
        ∧ em_color (atbat_embed Scenario.ohtani ab g) = green.
Proof.
  intros up g.
  exists (_format_atbat Scenario.home_run_12 g (_get_player_season_stats up 660271)).
  destruct (latest_atbat_is_well_formed up 660271 g _ eq_refl)
    as (Hres & _ & _ & _ & Hcolor).
  split; [reflexivity|]. split; [exact Hres|].
  apply Hcolor. simpl. rewrite !elem_of_cons. auto.
Defined.

(** ** [_get_player_season_stats] *)

Lemma format_average_shape (v : option string) :
  format_average v ≠ ""
  ∧ (format_average v = "0" ∨ ∀ r, format_average v ≠ String "0"%char r).
Proof.
  unfold format_average, Py.or_else.
  destruct (Py.lstrip "0" (default ".000" v)) as [|c r] eqn:Hs; simpl.
  - split; [done|]. by left.
  - split; [done|]. right. intros r' Heq. injection Heq as -> ->.
    by apply lstrip_zero_head in Hs.
Qed.

(** X5: whatever the upstream answers, the three averages of the season
    stats are non-empty and carry no leading zero (a value made of zeros
    only becomes the single character 0); when the request fails the
    result is the all-zero record with [".000"] averages. *)
Theorem season_averages_are_formatted (up : upstream) (pid : Z) :
  let st := _get_player_season_stats up pid in
  Forall (λ v, v ≠ "" ∧ (v = "0" ∨ ∀ r, v ≠ String "0"%char r))
    [avg st; obp st; slg st]
  ∧ (GET_stats up pid = None → st = zero_season_stats).
Proof.
  intros st. subst st. split.
  - unfold _get_player_season_stats.
    assert (Hzero : ".000" ≠ "" ∧ (".000" = "0" ∨ ∀ r, ".000" ≠ String "0"%char r))
      by (split; [done | by right]).
    destruct (default [∅] _) as [|group0 ?]; simpl.
    + do 3 (constructor; [apply Hzero|]). constructor.
    + destruct (default [] (splits group0)) as [|split0 ?]; simpl.
      * do 3 (constructor; [apply Hzero|]). constructor.
      * do 3 (constructor; [apply format_average_shape|]). constructor.
  - intros Hfail. unfold _get_player_season_stats. by rewrite Hfail.
Qed.

(** X6: the formatting of an average drops every leading zero, not one:
    a further zero in front changes nothing, and formatting a formatted
    value gives it back. *)
Theorem format_average_drops_all_zeros (s : string) (v : option string) :
  format_average (Some (String "0"%char s)) = format_average (Some s)
  ∧ format_average (Some (format_average v)) = format_average v.
Proof.
  split; [reflexivity|].
  destruct (format_average_shape v) as [Hne [H0|Hlead]].
  - by rewrite H0.
  - destruct (format_average v) as [|c r] eqn:Hf; [done|].
    unfold format_average at 1. simpl default.
    assert (Hc : c ≠ "0"%char) by (intros ->; by apply (Hlead r)).
    by rewrite (lstrip_zero_id c r Hc).
Qed.

(** ** [get_player_game_stats] *)

Lemma find_batting_app (pid : Z) (l1 l2 : list (string * box_player)) :
  find_batting pid (l1 ++ l2)
  = match find_batting pid l1 with
    | Some st => Some st
    | None => find_batting pid l2
    end.
Proof.
  induction l1 as [|[k bp] l1 IH]; simpl; [done|].
  by destruct (bool_decide (bp_person_id bp = Some pid)).
Qed.

Lemma find_batting_none (pid : Z) (l : list (string * box_player)) :
  find_batting pid l = None
  ↔ ∀ k bp, (k, bp) ∈ l → bp_person_id bp ≠ Some pid.
Proof.
  induction l as [|[k bp] l IH]; simpl.
  - split; [|done]. intros _ k bp Hin. by apply elem_of_nil in Hin.
  - case_bool_decide as Hid.
    + split; [done|]. intros Hall.
      by destruct (Hall k bp (list_elem_of_here _ _)).
    + rewrite IH. split.
      * intros Hall k' bp' Hin.
        apply elem_of_cons in Hin as [[= -> ->]|Hin]; eauto.
      * intros Hall k' bp' Hin. apply (Hall k' bp'), elem_of_cons. by right.
Qed.

Lemma find_batting_some (pid : Z) (l : list (string * box_player))
    (st : game_stats) :
  find_batting pid l = Some st →
  ∃ before k bp after,
    l = (before ++ (k, bp) :: after)%list
    ∧ bp_person_id bp = Some pid
    ∧ (∀ k' bp', (k', bp') ∈ before → bp_person_id bp' ≠ Some pid)
    ∧ st = {| gs_hits := default 0 (bl_hits (default ∅ (bp_batting bp)));
              gs_atbats := default 0 (bl_atBats (default ∅ (bp_batting bp)));
              gs_rbi := default 0 (bl_rbi (default ∅ (bp_batting bp)));
              gs_runs := default 0 (bl_runs (default ∅ (bp_batting bp))) |}.
Proof.
  induction l as [|[k bp] l IH]; simpl; [done|].
  case_bool_decide as Hid.
  - intros [= <-]. exists [], k, bp, l. repeat split; try done.
    intros k' bp' Hin. by apply elem_of_nil in Hin.
  - intros Hst.
    destruct (IH Hst) as (before & k0 & bp0 & after & -> & Hid0 & Hb & ->).
    exists ((k, bp) :: before), k0, bp0, after. repeat split; try done.
    intros k' bp' Hin. apply elem_of_cons in Hin as [[= -> ->]|Hin]; eauto.
Qed.

(** X7: [get_player_game_stats] reads the batting line of the first
    box-score entry with the player's id, looking through the away players
    and then the home players; missing numbers count as 0.  When no entry
    has that id, or when the feed request fails, it answers with the
    all-zero line. *)
Theorem game_stats_of_first_box_score_entry
    (up : upstream) (pid game_pk : Z) :
  let live := default ∅ (liveData (_request (GET_feed up game_pk))) in
  let entries :=
    (default [] (ld_away_players live) ++ default [] (ld_home_players live))%list in
  let line (bp : box_player) :=
    let b := default ∅ (bp_batting bp) in
    {| gs_hits := default 0 (bl_hits b); gs_atbats := default 0 (bl_atBats b);
       gs_rbi := default 0 (bl_rbi b); gs_runs := default 0 (bl_runs b) |} in
  (∀ before k bp after,
     entries = (before ++ (k, bp) :: after)%list →
     bp_person_id bp = Some pid →
     (∀ k' bp', (k', bp') ∈ before → bp_person_id bp' ≠ Some pid) →
     get_player_game_stats up pid game_pk = line bp)
  ∧ ((∀ k bp, (k, bp) ∈ entries → bp_person_id bp ≠ Some pid) →
     get_player_game_stats up pid game_pk = zero_game_stats)
  ∧ (GET_feed up game_pk = None →
     get_player_game_stats up pid game_pk = zero_game_stats).
Proof.
  intros live entries line.
  assert (Hrun : get_player_game_stats up pid game_pk
                 = default zero_game_stats (find_batting pid entries)).
  { unfold get_player_game_stats. fold live. unfold entries.
    rewrite find_batting_app.
    destruct (find_batting pid (default [] (ld_away_players live))); [done|].
    by destruct (find_batting pid (default [] (ld_home_players live))). }
  split; [|split].
  - intros before k bp after Hsplit Hid Hbefore. rewrite Hrun, Hsplit.
    rewrite find_batting_app.
    rewrite (proj2 (find_batting_none pid before) Hbefore). simpl.
    by rewrite bool_decide_eq_true_2.
  - intros Hnone. rewrite Hrun.
    by rewrite (proj2 (find_batting_none pid entries) Hnone).
  - intros Hfail. unfold get_player_game_stats. by rewrite Hfail.
Qed.

(** * Further properties of the poll loop *)

(** X8: a tick with no roster (file missing or empty list) does nothing at
    all, whatever the channel; a tick that does not find the channel makes
    no call and writes no file, and prints one warning. *)
Theorem check_games_idle
    (ft : string -> option string) (cid : Z) (up : upstream)
    (och : option channel) (s : state) :
  (default [] (players_json s) = [] →
   check_games ft cid up och s = (inr tt, s))
  ∧ (default [] (players_json s) ≠ [] →
     let s' := exec (check_games ft cid up None) s in
     fst (check_games ft cid up None s) = inr tt
     ∧ send_calls s' = send_calls s
     ∧ writes s' = writes s
     ∧ players_json s' = players_json s
     ∧ last_atbats_json s' = last_atbats_json s
     ∧ console s'
       = (console s ++ ["Warning: Could not find channel with ID "
                          +:+ Py.str cid])%list).
Proof.
  unfold check_games, load_json, gets, modify, print, modify, mbind, M_bind,
    exec. simpl.
  split.
  - intros Hempty. by destruct (players_json s) as [[|p rest]|].
  - intros Hroster.
    destruct (players_json s) as [[|p rest]|] eqn:Hfile; simpl in *;
      [congruence | repeat split; congruence | congruence].
Qed.

Section Writes.

Variable ft : string -> option string.
Variables (up : upstream) (ch : channel).

(** Calls and writes of one entry. *)
Lemma check_player_writes (player : player_info) (s : state) :
  let s' := exec (check_player ft up ch player) s in
  ∃ calls,
    send_calls s' = (send_calls s ++ calls)%list
    ∧ writes s'
      = (writes s
         ++ replicate (length (List.filter delivered_atbat calls))
              "last_atbats.json")%list.
Proof.
  cbv zeta.
  destruct (get_player_game_today ft up (id player)) as [g|] eqn:Hg;
    [|exists []; unfold exec; rewrite check_player_no_game by done;
      simpl; by rewrite !app_nil_r].
  destruct (get_latest_atbat up (id player) g) as [ab|] eqn:Hab;
    [|exists []; unfold exec;
      rewrite (check_player_no_atbat ft up ch player g) by done;
      simpl; by rewrite !app_nil_r].
  unfold exec. rewrite (check_player_found ft up ch player g ab s Hg Hab).
  assert (Hcount : delivered_atbat (atbat_embed player ab g, None) = true)
    by (unfold delivered_atbat; simpl; by destruct (was_hit ab)).
  case_bool_decide.
  - exists []. simpl. by rewrite !app_nil_r.
  - destruct (send_raises ch (atbat_embed player ab g)) as [x|] eqn:Hsend.
    + exists [(atbat_embed player ab g, Some x)]. simpl. by rewrite app_nil_r.
    + destruct (gameComplete g).
      * unfold send.
        exists [(atbat_embed player ab g, None);
                (summary_embed player g,
                 send_raises ch (summary_embed player g))].
        cbn [List.filter]. rewrite Hcount.
        destruct (send_raises ch (summary_embed player g)); simpl;
          by rewrite <- app_assoc.
      * exists [(atbat_embed player ab g, None)].
        cbn [List.filter]. by rewrite Hcount.
Qed.

Lemma for_each_player_writes (roster : list player_info) (s : state) :
  let s' := exec (for_each_player ft up ch roster) s in
  ∃ calls,
    send_calls s' = (send_calls s ++ calls)%list
    ∧ writes s'
      = (writes s
         ++ replicate (length (List.filter delivered_atbat calls))
              "last_atbats.json")%list.
Proof.
  cbv zeta. revert s. induction roster as [|p rest IH]; intros s.
  - exists []. simpl. by rewrite !app_nil_r.
  - rewrite exec_for_each_player_cons.
    destruct (IH (exec (try_except (check_player ft up ch p) (on_error p)) s))
      as (calls2 & Hc2 & Hw2).
    destruct (entry_state ft up ch p s) as (_ & _ & Hw & _ & Hc).
    destruct (check_player_writes p s) as (calls1 & Hc1 & Hw1).
    exists (calls1 ++ calls2)%list. split.
    + rewrite Hc2, Hc, Hc1. by rewrite app_assoc.
    + rewrite Hw2, Hw, Hw1, List.filter_app, length_app, replicate_add.
      by rewrite app_assoc.
Qed.

End Writes.

(** X9: in one tick the marker file is written once for every at-bat
    embed that was delivered, no more and no less, and the roster file is
    never written: the calls of the tick extend the log, and the writes of
    the tick are as many writes of [last_atbats.json] as there are
    delivered embeds other than the blue summary. *)
Theorem one_marker_write_per_delivered_atbat
    (ft : string -> option string) (cid : Z) (up : upstream)
    (och : option channel) (s : state) :
  let s' := exec (check_games ft cid up och) s in
  ∃ calls,
    send_calls s' = (send_calls s ++ calls)%list
    ∧ writes s'
      = (writes s
         ++ replicate (length (List.filter delivered_atbat calls))
              "last_atbats.json")%list
    ∧ players_json s' = players_json s.
Proof.
  cbv zeta.
  destruct och as [ch|].
  - unfold exec. rewrite check_games_run.
    destruct (players_json s) as [[|p rest]|] eqn:Hroster;
      try (exists []; simpl; rewrite !app_nil_r; by repeat split).
    set (s0 := set_last_atbats _ s).
    destruct (for_each_player_writes ft up ch (p :: rest) s0)
      as (calls & Hc & Hw).
    destruct (for_each_player_frame ft up ch (p :: rest) s0) as [Hr _].
    exists calls. split; [exact Hc|]. split; [exact Hw|].
    unfold exec in Hr. by rewrite Hr.
  - exists []. unfold check_games, load_json, gets, modify, print, modify,
      mbind, M_bind, exec. simpl.
    destruct (players_json s) as [[|p rest]|] eqn:Hroster; simpl;
      rewrite !app_nil_r; by repeat split.
Qed.

(** Two ticks over a roster of two entries in a Final game: the first
    posts, the second is silent. *)
Lemma repeated_cycle_is_silent_witness :
  let up := Scenario.upstream_with "Final" true
              [Scenario.home_run_12; Scenario.single_13] in
  let s := Scenario.fresh [Scenario.ohtani;
                           _format_player_info Scenario.smith_catcher] in
  let cycle := check_games Scenario.no_time 0 up (Some Scenario.open_channel) in
  length (posted cycle s) = 4%nat
  ∧ posted cycle (exec cycle s) = [].
Proof.
  intros up s cycle. split; [reflexivity|].
  apply (repeated_cycle_is_silent Scenario.no_time 0 up Scenario.open_channel).
  reflexivity.
Defined.

Lemma in_sync_default (s : state) :
  in_sync s → default ∅ (last_atbats_json s) = last_atbats s.
Proof. unfold in_sync. by destruct (last_atbats_json s). Qed.

Lemma in_sync_after_load (s : state) :
  in_sync (set_last_atbats
             (match last_atbats_json s with Some m => m | None => ∅ end) s).
Proof. unfold in_sync. simpl. by destruct (last_atbats_json s). Qed.

(** X11: after a tick whose channel delivers every at-bat embed, the
    marker file exists and holds, for every roster entry for which the
    upstream reports a latest completed at-bat, the id of that at-bat. *)
Theorem markers_up_to_date_after_tick
    (ft : string -> option string) (cid : Z) (up : upstream) (ch : channel)
    (s : state) :
  (∀ player ab g, send_raises ch (atbat_embed player ab g) = None) →
  ∀ player g ab,
    player ∈ default [] (players_json s) →
    get_player_game_today ft up (id player) = Some g →
    get_latest_atbat up (id player) g = Some ab →
    ∃ m,
      last_atbats_json (exec (check_games ft cid up (Some ch)) s) = Some m
      ∧ m !! Py.str (id player) = Some (ab_id ab).
Proof.
  intros Hdeliver player g ab Hin Hg Hab.
  unfold exec. rewrite check_games_run.
  destruct (players_json s) as [[|p rest]|] eqn:Hroster; simpl in Hin;
    try by apply elem_of_nil in Hin.
  set (s0 := set_last_atbats _ s).
  pose proof (for_each_player_settles ft up ch Hdeliver (p :: rest) s0) as Hall.
  destruct (for_each_player_frame ft up ch (p :: rest) s0) as [_ Hsync].
  specialize (Hsync (in_sync_after_load s)).
  unfold exec in Hall, Hsync.
  set (s1 := snd (for_each_player ft up ch (p :: rest) s0)) in *.
  rewrite Forall_forall in Hall.
  pose proof (Hall player Hin g ab Hg Hab) as Hmark.
  unfold in_sync in Hsync.
  destruct (last_atbats_json s1) as [m|].
  - exists m. by subst m.
  - rewrite Hsync, lookup_empty in Hmark. done.
Qed.

(** After one tick the file holds marker 12 for Ohtani. *)
Lemma markers_up_to_date_after_tick_witness :
  let up := Scenario.upstream_of "In Progress" true in
  ∃ m,
    last_atbats_json
      (exec (check_games Scenario.no_time 0 up (Some Scenario.open_channel))
         (Scenario.fresh [Scenario.ohtani])) = Some m
    ∧ m !! "660271" = Some 12.
Proof.
  intros up.
  apply (markers_up_to_date_after_tick Scenario.no_time 0 up
           Scenario.open_channel (Scenario.fresh [Scenario.ohtani])
           (λ _ _ _, eq_refl) Scenario.ohtani
           (_format_game_info Scenario.no_time (Scenario.game_777 "In Progress"))
           (_format_atbat Scenario.home_run_12
              (_format_game_info Scenario.no_time (Scenario.game_777 "In Progress"))
              (_get_player_season_stats up 660271))).
  - apply list_elem_of_here.
  - reflexivity.
  - reflexivity.
Defined.

(** The loop only adds markers, and only under the keys of its roster. *)
Lemma for_each_player_last_atbats
    (ft : string -> option string) (up : upstream) (ch : channel)
    (roster : list player_info) (s : state) (k : string) :
  let m' := last_atbats (exec (for_each_player ft up ch roster) s) in
  (is_Some (last_atbats s !! k) → is_Some (m' !! k))
  ∧ ((∀ p, p ∈ roster → Py.str (id p) ≠ k) → m' !! k = last_atbats s !! k).
Proof.
  cbv zeta. revert s. induction roster as [|p rest IH]; intros s; [done|].
  rewrite exec_for_each_player_cons.
  destruct (IH (exec (try_except (check_player ft up ch p) (on_error p)) s))
    as [Hdom Hother].
  rewrite entry_last_atbats in Hdom, Hother.
  destruct (check_player_last_atbats ft up ch p s)
    as [Heq|(g & ab & _ & _ & Heq)]; rewrite Heq in Hdom, Hother.
  - split; [exact Hdom|]. intros Hk. apply Hother.
    intros q Hq. apply Hk, elem_of_cons. by right.
  - split.
    + intros Hsome. apply Hdom.
      destruct (decide (Py.str (id p) = k)) as [<-|Hne].
      * rewrite lookup_insert_eq. eauto.
      * by rewrite lookup_insert_ne.
    + intros Hk. rewrite Hother.
      * apply lookup_insert_ne, Hk, list_elem_of_here.
      * intros q Hq. apply Hk, elem_of_cons. by right.
Qed.

(** X12: a tick never removes a marker from the marker file, and it leaves
    untouched the marker of every key that is not the key of a roster
    entry; in particular the marker of an entity that was removed from the
    roster stays in the file. *)
Theorem tick_keeps_other_markers
    (ft : string -> option string) (cid : Z) (up : upstream)
    (och : option channel) (s : state) :
  let before := default ∅ (last_atbats_json s) in
  let after :=
    default ∅ (last_atbats_json (exec (check_games ft cid up och) s)) in
  (∀ k, is_Some (before !! k) → is_Some (after !! k))
  ∧ (∀ k, (∀ p, p ∈ default [] (players_json s) → Py.str (id p) ≠ k) →
          after !! k = before !! k)
  ∧ (∀ i, (∀ p, p ∈ default [] (players_json s) → id p ≠ i) →
          after !! Py.str i = before !! Py.str i).
Proof.
  cbv zeta.
  assert (Hmain : ∀ k,
    (is_Some (default ∅ (last_atbats_json s) !! k) →
     is_Some (default ∅ (last_atbats_json (exec (check_games ft cid up och) s)) !! k))
    ∧ ((∀ p, p ∈ default [] (players_json s) → Py.str (id p) ≠ k) →
       default ∅ (last_atbats_json (exec (check_games ft cid up och) s)) !! k
       = default ∅ (last_atbats_json s) !! k)).
  { intros k. destruct och as [ch|].
    - unfold exec. rewrite check_games_run.
      destruct (players_json s) as [[|p rest]|] eqn:Hroster; try done.
      set (s0 := set_last_atbats _ s).
      destruct (for_each_player_frame ft up ch (p :: rest) s0) as [_ Hsync].
      specialize (Hsync (in_sync_after_load s)).
      apply in_sync_default in Hsync. unfold exec in Hsync. rewrite Hsync.
      destruct (for_each_player_last_atbats ft up ch (p :: rest) s0 k)
        as [Hdom Hother].
      unfold exec in Hdom, Hother.
      assert (Hs0 : last_atbats s0 = default ∅ (last_atbats_json s))
        by (subst s0; simpl; by destruct (last_atbats_json s)).
      rewrite Hs0 in Hdom, Hother. simpl default at 3. done.
    - unfold check_games, load_json, gets, modify, print, modify, mbind,
        M_bind, exec. simpl.
      by destruct (players_json s) as [[|p rest]|]. }
  split; [intros k; apply Hmain|]. split; [intros k; apply Hmain|].
  intros i Hi. apply Hmain. intros p Hp Heq.
  by apply (Hi p Hp), player_key_inj.
Qed.

(** * The at-bat trigger in a whole tick *)

(** The calls of the loop extend the log of calls. *)
Lemma for_each_player_new_calls
    (ft : string -> option string) (up : upstream) (ch : channel)
    (roster : list player_info) (s : state) :
  send_calls (exec (for_each_player ft up ch roster) s)
  = (send_calls s ++ new_calls (for_each_player ft up ch roster) s)%list.
Proof.
  destruct (for_each_player_writes ft up ch roster s) as (calls & Hc & _).
  unfold new_calls. by rewrite Hc, drop_app_length.
Qed.

(** The [except] clause makes no call: the calls of an iteration are those
    of its [try] block. *)
Lemma entry_new_calls
    (ft : string -> option string) (up : upstream) (ch : channel)
    (player : player_info) (s : state) :
  new_calls (try_except (check_player ft up ch player) (on_error player)) s
  = new_calls (check_player ft up ch player) s
  ∧ send_calls (exec (try_except (check_player ft up ch player)
                        (on_error player)) s)
    = (send_calls s ++ new_calls (check_player ft up ch player) s)%list.
Proof.
  destruct (entry_state ft up ch player s) as (_ & _ & _ & _ & Hc).
  destruct (check_player_writes ft up ch player s) as (calls & Hcalls & _).
  unfold new_calls. rewrite Hc, Hcalls, drop_app_length. done.
Qed.

(** A tick over a non-empty roster file loads the marker file into the
    dict and runs the loop over the roster. *)
Lemma check_games_loop
    (ft : string -> option string) (cid : Z) (up : upstream) (ch : channel)
    (roster : list player_info) (s : state) :
  players_json s = Some roster → roster ≠ [] →
  check_games ft cid up (Some ch) s
  = for_each_player ft up ch roster
      (set_last_atbats (default ∅ (last_atbats_json s)) s).
Proof.
  intros Hr Hne. rewrite check_games_run, Hr. by destruct roster.
Qed.

(** The tick seen from one roster entry: the loop over the entries before
    it, its own iteration, the loop over the entries after it. *)
Lemma check_games_split
    (ft : string -> option string) (cid : Z) (up : upstream) (ch : channel)
    (before after : list player_info) (player : player_info) (s : state) :
  players_json s = Some (before ++ player :: after)%list →
  let s0 := set_last_atbats (default ∅ (last_atbats_json s)) s in
  let s1 := exec (for_each_player ft up ch before) s0 in
  let entry := try_except (check_player ft up ch player) (on_error player) in
  exec (check_games ft cid up (Some ch)) s
  = exec (for_each_player ft up ch after) (exec entry s1)
  ∧ new_calls (check_games ft cid up (Some ch)) s
    = (new_calls (for_each_player ft up ch before) s0
       ++ new_calls entry s1
       ++ new_calls (for_each_player ft up ch after) (exec entry s1))%list.
Proof.
  intros Hr s0 s1 entry.
  assert (Hrun : exec (check_games ft cid up (Some ch)) s
                 = exec (for_each_player ft up ch after) (exec entry s1)).
  { unfold exec at 1.
    rewrite (check_games_loop ft cid up ch _ s Hr) by (by destruct before).
    fold s0. rewrite for_each_player_app. fold s1.
    by rewrite for_each_player_cons. }
  split; [exact Hrun|].
  unfold new_calls at 1. rewrite Hrun.
  rewrite (for_each_player_new_calls ft up ch after).
  subst entry.
  rewrite (proj2 (entry_new_calls ft up ch player s1)).
  rewrite (proj1 (entry_new_calls ft up ch player s1)).
  subst s1. rewrite (for_each_player_new_calls ft up ch before).
  change (send_calls s0) with (send_calls s).
  by rewrite <- !app_assoc, drop_app_length.
Qed.

(** In a roster without duplicate ids, the entries around an entry have
    other marker keys. *)
Lemma other_keys (before after : list player_info) (player : player_info) :
  NoDup (map id (before ++ player :: after)%list) →
  (∀ q, q ∈ before → Py.str (id q) ≠ Py.str (id player))
  ∧ (∀ q, q ∈ after → Py.str (id q) ≠ Py.str (id player)).
Proof.
  rewrite List.map_app. simpl. rewrite NoDup_app, NoDup_cons.
  intros (_ & Hb & Ha & _). split.
  - intros q Hq Heq. apply player_key_inj in Heq.
    apply (Hb (id q)).
    + apply list_elem_of_In, in_map. by apply list_elem_of_In.
    + rewrite Heq. apply list_elem_of_here.
  - intros q Hq Heq. apply player_key_inj in Heq. apply Ha.
    rewrite <- Heq. apply list_elem_of_In, in_map. by apply list_elem_of_In.
Qed.

(** After a tick the marker file agrees with the dict of the tick. *)
Lemma check_games_in_sync
    (ft : string -> option string) (cid : Z) (up : upstream) (ch : channel)
    (roster : list player_info) (s : state) :
  players_json s = Some roster → roster ≠ [] →
  let s' := exec (check_games ft cid up (Some ch)) s in
  players_json s' = Some roster
  ∧ default ∅ (last_atbats_json s') = last_atbats s'.
Proof.
  intros Hr Hne. cbv zeta.
  assert (Hrun : exec (check_games ft cid up (Some ch)) s
                 = exec (for_each_player ft up ch roster)
                     (set_last_atbats (default ∅ (last_atbats_json s)) s))
    by (unfold exec; by rewrite (check_games_loop ft cid up ch roster s Hr Hne)).
  rewrite Hrun.
  destruct (for_each_player_frame ft up ch roster
              (set_last_atbats (default ∅ (last_atbats_json s)) s))
    as [Hroster Hsync].
  split; [by rewrite Hroster|].
  apply in_sync_default, Hsync, in_sync_after_load.
Qed.

(** C1: in a tick over a roster file without duplicate ids, take the entry
    of [player], for which the upstream reports game [g] and latest
    completed at-bat [ab].  The tick loads the marker file, runs the loop
    over the roster, and its calls of [channel.send] are those of the
    entries before [player], then those of the entry of [player], then
    those of the entries after it.  Among the calls of the entry, the
    at-bat notification is posted exactly when the id of [ab] differs from
    the marker that the marker file holds for the entity at the start of
    the tick; with no marker in the file it is the first call of the entry.
    When the notification is delivered, the marker file after the tick
    holds the id of [ab] for the entity.  The next tick, with any upstream
    whose latest at-bat for the entity has the same id, makes no call for
    the entry: its calls are those of the other entries. *)
Theorem tick_posts_atbat_iff_id_differs
    (ft : string -> option string) (cid : Z) (up : upstream) (ch : channel)
    (before after : list player_info) (player : player_info)
    (g : game_info) (ab : atbat) (s : state) :
  players_json s = Some (before ++ player :: after)%list →
  NoDup (map id (before ++ player :: after)%list) →
  get_player_game_today ft up (id player) = Some g →
  get_latest_atbat up (id player) g = Some ab →
  let key := Py.str (id player) in
  let marker (t : state) := default ∅ (last_atbats_json t) !! key in
  let tick (u : upstream) := check_games ft cid u (Some ch) in
  let loop (u : upstream) := for_each_player ft u ch in
  let entry (u : upstream) :=
    try_except (check_player ft u ch player) (on_error player) in
  let loaded (t : state) :=
    set_last_atbats (default ∅ (last_atbats_json t)) t in
  let reached (u : upstream) (t : state) := exec (loop u before) (loaded t) in
  let e := atbat_embed player ab g in
  new_calls (tick up) s
  = (new_calls (loop up before) (loaded s)
     ++ new_calls (entry up) (reached up s)
     ++ new_calls (loop up after) (exec (entry up) (reached up s)))%list
  ∧ (e ∈ posted (entry up) (reached up s) ↔ marker s ≠ Some (ab_id ab))
  ∧ (marker s = None → head (posted (entry up) (reached up s)) = Some e)
  ∧ (e ∈ notified (entry up) (reached up s) →
     marker (exec (tick up) s) = Some (ab_id ab))
  ∧ (∀ up' g' ab',
       get_player_game_today ft up' (id player) = Some g' →
       get_latest_atbat up' (id player) g' = Some ab' →
       ab_id ab' = ab_id ab →
       e ∈ notified (entry up) (reached up s) ∨ marker s = Some (ab_id ab) →
       let s' := exec (tick up) s in
       new_calls (entry up') (reached up' s') = []
       ∧ new_calls (tick up') s'
         = (new_calls (loop up' before) (loaded s')
            ++ new_calls (loop up' after) (reached up' s'))%list).
Proof.
  intros Hroster Hnodup Hg Hab key marker tick loop entry loaded reached e.
  destruct (other_keys before after player Hnodup) as [Hbefore Hafter].
  fold key in Hbefore, Hafter.
  assert (Hne : (before ++ player :: after)%list ≠ []) by (by destruct before).
  (* the marker the entry is compared with is the one of the file *)
  assert (Hreach : ∀ u t, last_atbats (reached u t) !! key = marker t).
  { intros u t. subst reached loop. cbv beta.
    by rewrite (proj2 (for_each_player_last_atbats ft u ch before (loaded t) key)
                  Hbefore). }
  assert (Hposted : ∀ t, posted (entry up) t
                         = posted (check_player ft up ch player) t).
  { intros t. unfold posted. subst entry. cbv beta.
    by rewrite (proj1 (entry_new_calls ft up ch player t)). }
  assert (Hnotified : ∀ t, notified (entry up) t
                           = notified (check_player ft up ch player) t).
  { intros t. unfold notified. subst entry. cbv beta.
    by rewrite (proj1 (entry_new_calls ft up ch player t)). }
  (* the marker of the entity in the file after the tick *)
  assert (Hafter_tick :
    e ∈ notified (entry up) (reached up s) ∨ marker s = Some (ab_id ab) →
    marker (exec (tick up) s) = Some (ab_id ab)).
  { intros Hdone. rewrite Hnotified, <- (Hreach up s) in Hdone.
    apply (marker_after_poll ft up ch player g ab _ Hg Hab) in Hdone.
    subst marker tick. cbv beta.
    rewrite (proj2 (check_games_in_sync ft cid up ch _ s Hroster Hne)).
    rewrite (proj1 (check_games_split ft cid up ch before after player s
                      Hroster)).
    rewrite (proj2 (for_each_player_last_atbats ft up ch after _ key) Hafter).
    by rewrite entry_last_atbats. }
  split; [|split; [|split; [|split]]].
  - apply (check_games_split ft cid up ch before after player s Hroster).
  - rewrite Hposted. unfold posted.
    rewrite (check_player_calls ft up ch player g ab Hg Hab), Hreach.
    fold e. case_bool_decide as Hseen.
    + rewrite elem_of_nil. tauto.
    + destruct (send_raises ch e); simpl; rewrite elem_of_cons; tauto.
  - intros Hnone. rewrite Hposted. unfold posted.
    rewrite (check_player_calls ft up ch player g ab Hg Hab), Hreach, Hnone.
    fold e. rewrite bool_decide_eq_false_2 by done.
    by destruct (send_raises ch e).
  - intros Hin. apply Hafter_tick. by left.
  - intros up' g' ab' Hg' Hab' Hid Hdone s'.
    apply Hafter_tick in Hdone. fold s' in Hdone.
    destruct (check_games_in_sync ft cid up ch _ s Hroster Hne)
      as [Hroster' _]. fold (tick up) in Hroster'. fold s' in Hroster'.
    assert (Hidle : check_player ft up' ch player (reached up' s')
                    = (inr tt, reached up' s')).
    { rewrite (check_player_found ft up' ch player g' ab' _ Hg' Hab').
      fold key. rewrite Hreach, Hdone, Hid.
      by rewrite bool_decide_eq_true_2. }
    assert (Hentry : entry up' (reached up' s') = (inr tt, reached up' s')).
    { subst entry. cbv beta. unfold try_except. by rewrite Hidle. }
    assert (Hnone : new_calls (entry up') (reached up' s') = []).
    { unfold new_calls, exec. rewrite Hentry. simpl. by rewrite drop_all. }
    assert (Hexec : exec (entry up') (reached up' s') = reached up' s')
      by (unfold exec; by rewrite Hentry).
    split; [exact Hnone|].
    pose proof (proj2 (check_games_split ft cid up' ch before after player s'
                         Hroster')) as Hsplit.
    change (new_calls (tick up') s'
            = (new_calls (loop up' before) (loaded s')
               ++ new_calls (entry up') (reached up' s')
               ++ new_calls (loop up' after)
                    (exec (entry up') (reached up' s')))%list) in Hsplit.
    by rewrite Hsplit, Hnone, Hexec.
Qed.

(** A roster of three in a game in progress: Will Smith (669257), whose
    latest at-bat is play 13, Shohei Ohtani (660271), whose latest at-bat
    is play 12, and a third player without a game; no marker file.  The
    first tick posts both at-bats, Ohtani's as the first call of his entry,
    and leaves marker 12 for him in the file; the second tick makes no
    call. *)
Lemma tick_posts_atbat_iff_id_differs_witness :
  let up := Scenario.upstream_with "In Progress" true
              [Scenario.home_run_12; Scenario.single_13] in
  let smith := _format_player_info Scenario.smith_catcher in
  let s := Scenario.fresh [smith; Scenario.ohtani; Scenario.judge] in
  let ch := Scenario.open_channel in
  let tick := check_games Scenario.no_time 0 up (Some ch) in
  let g := _format_game_info Scenario.no_time (Scenario.game_777 "In Progress") in
  let ab := _format_atbat Scenario.home_run_12 g
              (_get_player_season_stats up 660271) in
  let entry :=
    try_except (check_player Scenario.no_time up ch Scenario.ohtani)
      (on_error Scenario.ohtani) in
  let reached (t : state) :=
    exec (for_each_player Scenario.no_time up ch [smith])
      (set_last_atbats (default ∅ (last_atbats_json t)) t) in
  map em_title (posted tick s)
  = ["⚾ Will Smith - At Bat"; "⚾ Shohei Ohtani - At Bat"]
  ∧ head (posted entry (reached s)) = Some (atbat_embed Scenario.ohtani ab g)
  ∧ default ∅ (last_atbats_json (exec tick s)) !! "660271" = Some 12
  ∧ new_calls entry (reached (exec tick s)) = []
  ∧ posted tick (exec tick s) = [].
Proof.
  intros up smith s ch tick g ab entry reached.
  assert (Hroster : players_json s
                    = Some ([smith] ++ Scenario.ohtani :: [Scenario.judge])%list)
    by reflexivity.
  assert (Hnodup : NoDup (map id ([smith] ++ Scenario.ohtani
                                    :: [Scenario.judge])%list)).
  { simpl. apply NoDup_cons. split.
    - rewrite !elem_of_cons, elem_of_nil. intros [H|[H|[]]]; discriminate H.
    - apply NoDup_cons. split; [|apply NoDup_singleton].
      rewrite elem_of_cons, elem_of_nil. intros [H|[]]; discriminate H. }
  assert (Hg : get_player_game_today Scenario.no_time up (id Scenario.ohtani)
               = Some g) by reflexivity.
  assert (Hab : get_latest_atbat up (id Scenario.ohtani) g = Some ab)
    by reflexivity.
  destruct (tick_posts_atbat_iff_id_differs Scenario.no_time 0 up ch
              [smith] [Scenario.judge] Scenario.ohtani g ab s
              Hroster Hnodup Hg Hab)
    as (Hsplit & Hiff & Hfirst & Hmark & Hagain).
  assert (Hin : atbat_embed Scenario.ohtani ab g ∈ notified entry (reached s)).
  { apply list_elem_of_In. vm_compute. left. reflexivity. }
  destruct (Hagain up g ab Hg Hab eq_refl (or_introl Hin)) as [Hnone Hrest].
  split; [reflexivity|]. split; [by apply Hfirst|].
  split; [by apply Hmark|]. split; [exact Hnone|].
  unfold posted. fold tick in Hrest. rewrite Hrest. reflexivity.
Defined.

(** * Further properties of the roster commands *)

(** What [remove_player] does for a user who holds the role. *)
Lemma remove_player_run (ul : string -> string) (player_name : string)
    (s : state) :
  let roster := default [] (players_json s) in
  let kept := List.filter (keeps ul player_name) roster in
  remove_player ul true player_name s =
    if Nat.eqb (length kept) (length roster)
    then (inr ("Player '" +:+ player_name +:+ "' not found in roster."), s)
    else (inr ("✅ Removed player matching '" +:+ player_name
                 +:+ "' from tracking."),
          write_file PLAYER_ROSTER_FILE kept s).
Proof.
  cbv zeta. unfold remove_player, load_json, gets, mbind, M_bind. simpl.
  replace (match players_json s with Some data => data | None => [] end)
    with (default [] (players_json s)) by (by destruct (players_json s)).
  by destruct (Nat.eqb _ _).
Qed.

Lemma filter_filter_same {A : Type} (f : A -> bool) (l : list A) :
  List.filter f (List.filter f l) = List.filter f l.
Proof.
  induction l as [|x l IH]; simpl; [done|].
  destruct (f x) eqn:Hx; simpl; [|done]. by rewrite Hx, IH.
Qed.

(** X13: running [remove_player] a second time with the same query finds
    nothing: it answers not-found and changes nothing.  Neither run touches
    the marker file, so the markers of removed players stay. *)
Theorem remove_player_twice (ul : string -> string) (player_name : string)
    (s : state) :
  let s1 := exec (remove_player ul true player_name) s in
  remove_player ul true player_name s1
  = (inr ("Player '" +:+ player_name +:+ "' not found in roster."), s1)
  ∧ last_atbats_json s1 = last_atbats_json s.
Proof.
  cbv zeta. unfold exec at 1 2 3. rewrite (remove_player_run ul player_name s).
  cbv zeta.
  destruct (Nat.eqb _ _) eqn:Hlen; simpl.
  - split; [|done]. rewrite (remove_player_run ul player_name s). cbv zeta.
    by rewrite Hlen.
  - split; [|done]. rewrite remove_player_run. cbv zeta. simpl.
    by rewrite filter_filter_same, Nat.eqb_refl.
Qed.

Lemma contains_empty (h : string) : Py.contains "" h = true.
Proof. by destruct h. Qed.

(** X14: a query that every roster name contains empties the roster in one
    invocation; the empty query is such a query, for every roster. *)
Theorem remove_player_can_empty_roster
    (ul : string -> string) (player_name : string) (s : state) :
  let roster := default [] (players_json s) in
  (roster ≠ [] →
   (∀ p, p ∈ roster → keeps ul player_name p = false) →
   players_json (exec (remove_player ul true player_name) s) = Some [])
  ∧ (roster ≠ [] →
     players_json (exec (remove_player ul true "") s) = Some []).
Proof.
  cbv zeta.
  assert (Hall : ∀ q,
    default [] (players_json s) ≠ [] →
    (∀ p, p ∈ default [] (players_json s) → keeps ul q p = false) →
    players_json (exec (remove_player ul true q) s) = Some []).
  { intros q Hne Hnone. unfold exec. rewrite remove_player_run. cbv zeta.
    assert (Hnil : List.filter (keeps ul q) (default [] (players_json s)) = [])
      by (by apply filter_nil_iff).
    rewrite Hnil.
    destruct (default [] (players_json s)) as [|p rest]; [done|].
    reflexivity. }
  split; [apply Hall|].
  intros Hne. apply Hall; [done|].
  intros p _. unfold keeps.
  change (Py.lower ul "") with "". by rewrite contains_empty.
Qed.

(** Both names of the roster contain the letter a: the query "A" empties
    the roster, and so does the empty query. *)
Lemma remove_player_can_empty_roster_witness :
  let s := Scenario.fresh [Scenario.ohtani; Scenario.judge] in
  players_json (exec (remove_player Scenario.no_unicode true "A") s) = Some []
  ∧ players_json (exec (remove_player Scenario.no_unicode true "") s)
    = Some [].
Proof.
  intros s. split.
  - apply (proj1 (remove_player_can_empty_roster Scenario.no_unicode "A" s));
      [discriminate|].
    intros p Hp. simpl in Hp. rewrite !elem_of_cons, elem_of_nil in Hp.
    destruct Hp as [->|[->|[]]]; reflexivity.
  - apply (proj2 (remove_player_can_empty_roster Scenario.no_unicode "A" s)).
    discriminate.
Defined.

(** ** The game summary and the status of the game *)

Lemma game_today_is_formatted
    (ft : string -> option string) (up : upstream) (pid : Z) (g : game_info) :
  get_player_game_today ft up pid = Some g →
  ∃ game, g = _format_game_info ft game.
Proof.
  unfold get_player_game_today.
  destruct (people _) as [[|first ?]|]; try done.
  destruct (tr_id _) as [tid|]; try done.
  destruct (Z.eqb tid 0); try done.
  destruct (default [] _) as [|date0 ?]; try done.
  destruct (sd_games date0) as [[|game ?]|]; try done.
  intros [= <-]. by exists game.
Qed.

(** X15: a blue embed, the game summary, is handed to the channel only for
    a game whose detailed state is exactly the string Final; for any other
    state ("Game Over", "Completed Early", "final") no summary is posted. *)
Theorem summary_only_for_final_status
    (ft : string -> option string) (up : upstream) (ch : channel)
    (player : player_info) (s : state) (e : embed) :
  e ∈ posted (check_player ft up ch player) s →
  em_color e = blue →
  ∃ game,
    get_player_game_today ft up (id player) = Some (_format_game_info ft game)
    ∧ sg_detailedState game = Some "Final"
    ∧ e = summary_embed player (_format_game_info ft game).
Proof.
  intros Hin Hblue.
  destruct (get_player_game_today ft up (id player)) as [g|] eqn:Hg.
  2:{ unfold posted, new_calls, exec in Hin.
      rewrite check_player_no_game in Hin by done. simpl in Hin.
      rewrite drop_all in Hin. by apply elem_of_nil in Hin. }
  destruct (get_latest_atbat up (id player) g) as [ab|] eqn:Hab.
  2:{ unfold posted, new_calls, exec in Hin.
      rewrite (check_player_no_atbat ft up ch player g) in Hin by done.
      simpl in Hin. rewrite drop_all in Hin. by apply elem_of_nil in Hin. }
  assert (Hnot : e ≠ atbat_embed player ab g).
  { intros ->. simpl in Hblue. by destruct (was_hit ab). }
  destruct (game_today_is_formatted ft up (id player) g Hg) as [game Hgame].
  exists game. rewrite <- Hgame. split; [done|].
  unfold posted in Hin.
  rewrite (check_player_calls ft up ch player g ab Hg Hab) in Hin.
  case_bool_decide; [by apply elem_of_nil in Hin|].
  destruct (send_raises ch (atbat_embed player ab g)); simpl in Hin.
  - apply elem_of_cons in Hin as [?|Hin]; [done|]. by apply elem_of_nil in Hin.
  - apply elem_of_cons in Hin as [?|Hin]; [done|].
    destruct (gameComplete g) eqn:Hfinal; simpl in Hin.
    + apply elem_of_cons in Hin as [->|Hin]; [|by apply elem_of_nil in Hin].
      split; [|done]. rewrite Hgame in Hfinal. simpl in Hfinal.
      by apply bool_decide_eq_true in Hfinal.
    + by apply elem_of_nil in Hin.
Qed.

(** The summary of the Final game 777. *)
Lemma summary_only_for_final_status_witness :
  let up := Scenario.upstream_of "Final" true in
  let g := _format_game_info Scenario.no_time (Scenario.game_777 "Final") in
  ∃ game,
    get_player_game_today Scenario.no_time up 660271
    = Some (_format_game_info Scenario.no_time game)
    ∧ sg_detailedState game = Some "Final"
    ∧ summary_embed Scenario.ohtani g
      = summary_embed Scenario.ohtani (_format_game_info Scenario.no_time game).
Proof.
  intros up g.
  apply (summary_only_for_final_status Scenario.no_time up
           Scenario.open_channel Scenario.ohtani
           (Scenario.fresh [Scenario.ohtani])).
  - apply list_elem_of_In. vm_compute. right. left. reflexivity.
  - reflexivity.
Defined.

(** ** Adding a player from the selection view *)

Lemma already_tracked_spec (player : player_info) (roster : list player_info) :
  already_tracked player roster = false ↔ id player ∉ map id roster.
Proof.
  unfold already_tracked. induction roster as [|p roster IH]; simpl.
  - split; [|done]. intros _ Hin. by apply elem_of_nil in Hin.
  - rewrite orb_false_iff, IH, not_elem_of_cons, Z.eqb_neq. split.
    + intros [Hne Hnot]. split; [|done]. intros Heq. by apply Hne.
    + intros [Hne Hnot]. split; [|done]. intros Heq. by apply Hne.
Qed.

(** What the callback of a player button does for the user who asked. *)
Lemma create_callback_run (selected_player : player_info) (s : state) :
  let roster := default [] (players_json s) in
  create_callback selected_player true s =
    if already_tracked selected_player roster
    then (inr (edit_message ("❌ " +:+ name selected_player
                               +:+ " is already being tracked!")), s)
    else (inr (edit_message
                 ("✅ Now tracking **" +:+ name selected_player +:+ "** (#"
                    +:+ number_text selected_player +:+ ") - "
                    +:+ team selected_player)),
          write_file PLAYER_ROSTER_FILE (roster ++ [selected_player])%list s).
Proof.
  cbv zeta. unfold create_callback, load_json, gets, mbind, M_bind. simpl.
  replace (match players_json s with Some data => data | None => [] end)
    with (default [] (players_json s)) by (by destruct (players_json s)).
  by destruct (already_tracked _ _).
Qed.

Lemma NoDup_map_filter {A B : Type} (f : A -> B) (keep : A -> bool)
    (l : list A) :
  NoDup (map f l) → NoDup (map f (List.filter keep l)).
Proof.
  induction l as [|x l IH]; simpl; [done|].
  rewrite NoDup_cons. intros [Hx Hl]. destruct (keep x); simpl; [|auto].
  apply NoDup_cons. split; [|auto].
  intros Hin. apply Hx.
  apply list_elem_of_In, in_map_iff in Hin as (y & Hy & Hin).
  apply filter_In in Hin as [Hin _].
  apply list_elem_of_In, in_map_iff. eauto.
Qed.

(** X16: the roster never comes to hold two entries with the same id.  If
    its ids are distinct, they are still distinct after a click on a
    player button (which adds the player only when its id is not yet in
    the roster), after [remove_player], after a click on Cancel and after
    a tick of the poll loop. *)
Theorem roster_ids_stay_unique (s : state) :
  let ids (t : state) := map id (default [] (players_json t)) in
  NoDup (ids s) →
  (∀ player same_user, NoDup (ids (exec (create_callback player same_user) s)))
  ∧ (∀ ul has_role player_name,
       NoDup (ids (exec (remove_player ul has_role player_name) s)))
  ∧ (∀ same_user, NoDup (ids (exec (cancel_callback same_user) s)))
  ∧ (∀ ft cid up och, NoDup (ids (exec (check_games ft cid up och) s))).
Proof.
  cbv zeta. intros Hnodup. split; [|split; [|split]].
  - intros player [|]; [|done].
    unfold exec. rewrite create_callback_run. cbv zeta.
    destruct (already_tracked _ _) eqn:Htracked; [done|]. simpl.
    rewrite map_app. apply NoDup_app. split; [done|]. split.
    + intros x Hx. simpl. rewrite elem_of_cons, elem_of_nil.
      intros [->|[]]. by apply already_tracked_spec in Htracked.
    + apply NoDup_singleton.
  - intros ul [|] player_name; [|done].
    unfold exec. rewrite remove_player_run. cbv zeta.
    destruct (Nat.eqb _ _); [done|]. simpl. by apply NoDup_map_filter.
  - by intros [|].
  - intros ft cid up [ch|].
    + unfold exec. rewrite check_games_run.
      destruct (players_json s) as [[|p rest]|] eqn:Hroster;
        try exact Hnodup.
      destruct (for_each_player_frame ft up ch (p :: rest)
                  (set_last_atbats
                     match last_atbats_json s with
                     | Some m => m
                     | None => ∅
                     end s)) as [Hr _].
      unfold exec in Hr. rewrite Hr. exact Hnodup.
    + unfold check_games, load_json, gets, modify, print, modify, mbind,
        M_bind, exec. simpl.
      destruct (players_json s) as [[|p rest]|] eqn:Hroster;
        simpl; exact Hnodup.
Qed.

(** Selecting Ohtani twice leaves one Ohtani. *)
Lemma roster_ids_stay_unique_witness :
  let s := Scenario.fresh [Scenario.judge; Scenario.ohtani] in
  NoDup (map id (default [] (players_json
                               (exec (create_callback Scenario.ohtani true) s))))
  ∧ players_json (exec (create_callback Scenario.ohtani true) s)
    = players_json s.
Proof.
  intros s. split; [|reflexivity].
  apply (proj1 (roster_ids_stay_unique s
                  ltac:(simpl; apply NoDup_cons; split;
                          [rewrite elem_of_cons, elem_of_nil;
                           intros [H|[]]; discriminate H
                          |apply NoDup_singleton]))).
Defined.

Lemma append_empty_r (n : string) : n +:+ "" = n.
Proof. induction n as [|c n IH]; [done|]. by rewrite append_cons, IH. Qed.

Lemma contains_self (n : string) : Py.contains n n = true.
Proof. apply contains_spec. exists "", "". by rewrite append_nil, append_empty_r. Qed.

Lemma filter_all {A : Type} (f : A -> bool) (l : list A) :
  (∀ x, x ∈ l → f x = true) → List.filter f l = l.
Proof.
  induction l as [|x l IH]; simpl; [done|]. intros Hall.
  rewrite (Hall x (list_elem_of_here _ _)). f_equal. apply IH.
  intros y Hy. apply Hall, elem_of_cons. by right.
Qed.

(** X17: removing a player by its full name right after it was added from
    the selection view gives back the roster as it was, provided no other
    roster name contains that name, both lower-cased by [str.lower] (with
    [ul] for the strings that are not ASCII). *)
Theorem add_then_remove_restores_roster
    (ul : string -> string) (player : player_info) (s : state) :
  let roster := default [] (players_json s) in
  already_tracked player roster = false →
  (∀ p, p ∈ roster → keeps ul (name player) p = true) →
  players_json (exec (remove_player ul true (name player))
                  (exec (create_callback player true) s))
  = Some roster.
Proof.
  cbv zeta. intros Hnew Hkept.
  unfold exec at 2. rewrite create_callback_run. cbv zeta. rewrite Hnew.
  unfold exec. rewrite remove_player_run. cbv zeta. simpl.
  assert (Hself : keeps ul (name player) player = false)
    by (unfold keeps; by rewrite contains_self).
  rewrite List.filter_app. simpl. rewrite Hself, filter_all, app_nil_r by done.
  rewrite length_app. simpl.
  replace (length (default [] (players_json s))
           =? length (default [] (players_json s)) + 1)%nat with false
    by (symmetry; apply Nat.eqb_neq; lia).
  reflexivity.
Qed.

(** Ohtani added to a roster that holds Judge, then removed by name. *)
Lemma add_then_remove_restores_roster_witness :
  let s := Scenario.fresh [Scenario.judge] in
  players_json (exec (remove_player Scenario.no_unicode true "Shohei Ohtani")
                  (exec (create_callback Scenario.ohtani true) s))
  = Some [Scenario.judge].
Proof.
  intros s.
  apply (add_then_remove_restores_roster Scenario.no_unicode Scenario.ohtani s).
  - reflexivity.
  - intros p Hp. simpl in Hp. rewrite elem_of_cons, elem_of_nil in Hp.
    destruct Hp as [->|[]]. reflexivity.
Defined.

(** ** The daily schedule *)

Lemma schedule_line_head
    (ft : string -> option string) (up : upstream) (player : player_info) :
  ∃ r, schedule_line ft up player = String "*"%char r.
Proof.
  unfold schedule_line.
  destruct (get_player_game_today ft up (id player)) as [game|];
    eexists; rewrite append_cons; reflexivity.
Qed.

Lemma concat_head (sep : string) (c : ascii) (r : string) (xs : list string) :
  ∃ r', String.concat sep (String c r :: xs) = String c r'.
Proof.
  destruct xs as [|y ys]; simpl.
  - by exists r.
  - eexists. rewrite append_cons. reflexivity.
Qed.

(** X18: [post_daily_schedule] builds no embed when the roster is empty
    (it prints "No players to track.") or when the channel is not found
    (it prints the warning).  Otherwise it builds one embed and changes
    nothing: the description has one line for each roster entry, in roster
    order, joined by newlines, and the footer counts the roster.  The text
    "No tracked players have games today." is never the description:
    players without a game are listed with "No game scheduled". *)
Theorem daily_schedule_lists_every_player
    (ft : string -> option string) (cid : Z) (up : upstream)
    (channel_found : bool) (s : state) :
  let roster := default [] (players_json s) in
  let run := post_daily_schedule ft cid up channel_found in
  (roster = [] →
   run s = (inr None, log_print "No players to track." s))
  ∧ (roster ≠ [] → channel_found = false →
     run s = (inr None,
              log_print ("Warning: Could not find channel with ID "
                           +:+ Py.str cid) s))
  ∧ (roster ≠ [] → channel_found = true →
     ∃ e,
       run s = (inr (Some e), s)
       ∧ se_description e
         = String.concat newline (map (schedule_line ft up) roster)
       ∧ se_description e ≠ "No tracked players have games today."
       ∧ se_footer e
         = "Tracking " +:+ Py.str (Z.of_nat (length roster)) +:+ " player(s)").
Proof.
  cbv zeta.
  unfold post_daily_schedule, load_json, gets, print, modify, mbind, M_bind.
  simpl.
  replace (match players_json s with Some data => data | None => [] end)
    with (default [] (players_json s)) by (by destruct (players_json s)).
  destruct (default [] (players_json s)) as [|p rest] eqn:Hroster.
  - split; [done|]. split; intros Hne; done.
  - split; [done|]. split.
    + intros _ ->. reflexivity.
    + intros _ ->. simpl negb. cbv iota.
      eexists. split; [reflexivity|]. cbn [se_description se_footer].
      split; [reflexivity|]. split; [|reflexivity].
      destruct (schedule_line_head ft up p) as [r Hline].
      change (map (schedule_line ft up) (p :: rest))
        with (schedule_line ft up p :: map (schedule_line ft up) rest).
      rewrite Hline.
      destruct (concat_head newline "*" r (map (schedule_line ft up) rest))
        as [r' Hhead].
      rewrite Hhead. discriminate.
Qed.

(** Ohtani plays today and Judge does not: two lines, no fallback text. *)
Lemma daily_schedule_lists_every_player_witness :
  let up := Scenario.upstream_of "Scheduled" true in
  let s := Scenario.fresh [Scenario.ohtani; Scenario.judge] in
  ∃ e,
    post_daily_schedule Scenario.no_time 0 up true s = (inr (Some e), s)
    ∧ se_description e
      = "**Shohei Ohtani**: San Diego Padres @ Los Angeles Dodgers - "
          +:+ newline +:+ "**Aaron Judge**: No game scheduled"
    ∧ se_footer e = "Tracking 2 player(s)".
Proof.
  intros up s.
  destruct (proj2 (proj2 (daily_schedule_lists_every_player
                            Scenario.no_time 0 up true s)))
    as (e & Hrun & Hdesc & _ & Hfoot); [discriminate | reflexivity |].
  exists e. split; [exact Hrun|]. split; [|exact Hfoot].
  rewrite Hdesc. reflexivity.
Defined.

(** ** The selection view *)

(** X20: whichever button of the selection view is clicked, and by whom,
    the roster afterwards is either the roster as it was or that roster
    with one player appended at its end; the appended player is one of the
    first five players offered, and its id was not in the roster. *)
Theorem view_adds_at_most_one_of_first_five
    (players : list player_info) (b : button) (same_user : bool) (s : state) :
  b ∈ PlayerSelectView players →
  let roster := default [] (players_json s) in
  let roster' := default [] (players_json (exec (bt_callback b same_user) s)) in
  roster' = roster
  ∨ ∃ player,
      roster' = (roster ++ [player])%list
      ∧ player ∈ take 5 players
      ∧ id player ∉ map id roster.
Proof.
  intros Hb. cbv zeta. unfold PlayerSelectView in Hb.
  apply elem_of_app in Hb as [Hb|Hb].
  - apply elem_of_lookup_imap in Hb as (i & player & -> & Hi). simpl.
    destruct same_user; [|by left].
    unfold exec. rewrite create_callback_run. cbv zeta.
    destruct (already_tracked _ _) eqn:Htracked; [by left|]. right.
    exists player. split; [done|]. split.
    + by apply list_elem_of_lookup_2 in Hi.
    + by apply already_tracked_spec.
  - apply elem_of_cons in Hb as [->|Hb]; [|by apply elem_of_nil in Hb].
    left. by destruct same_user.
Qed.

(** Six players are offered; the first button adds the first of them, and
    no button adds the sixth. *)
Lemma view_adds_at_most_one_of_first_five_witness :
  let offered :=
    [Scenario.judge; Scenario.ohtani; Scenario.judge; Scenario.judge;
     Scenario.judge; _format_player_info Scenario.smith_catcher] in
  let s := Scenario.fresh [] in
  (∃ b, head (PlayerSelectView offered) = Some b
        ∧ players_json (exec (bt_callback b true) s) = Some [Scenario.judge])
  ∧ ∀ b, b ∈ PlayerSelectView offered →
         default [] (players_json (exec (bt_callback b true) s))
         ≠ [_format_player_info Scenario.smith_catcher].
Proof.
  intros offered s. split.
  - eexists. split; reflexivity.
  - intros b Hb Heq.
    destruct (view_adds_at_most_one_of_first_five offered b true s Hb)
      as [Hsame|(player & Hadd & Hin & _)].
    + rewrite Heq in Hsame. discriminate Hsame.
    + rewrite Heq in Hadd. simpl in Hadd. injection Hadd as <-.
      simpl in Hin. rewrite !elem_of_cons, elem_of_nil in Hin.
      destruct Hin as [H|[H|[H|[H|[H|[]]]]]]; discriminate H.
Defined.
